(** * DCF analysis: a shallow embedding of [DCF analysis trial/DCF analysis.py]

    The script loads a table of historical line items, derives free cash
    flow, projects it over a glide path of growth rates and discounts the
    projection (class [DCFAnalysis], function [test_run]).

    Numbers.  The script computes on binary64 floats through numpy and
    pandas.  A finite float is modelled by an exact rational (rounding is not
    modelled); the three non-finite values are kept, because numpy and pandas
    answer a division by zero with [inf] or [nan] and a warning where plain
    Python would raise.  Signed zeros are not modelled: a zero divisor is
    taken as [+0.0], which is what [x - x] yields.

    Tables.  The columns of a table hold floats; columns of integers and
    columns with a text cell are not modelled.

    The interactive [get_user_inputs] is not called by [test_run] and is
    left out; the assumptions are fields of the object. *)

From stdpp Require Import base numbers list strings gmap.
From Stdlib Require Import QArith Qcanon Lqa.

Local Open Scope Qc_scope.

(** ** Floats *)

Inductive float64 : Type :=
  | Fin (q : Qc)
  | PInf
  | NInf
  | NaN.

#[global] Instance float64_eq_dec : EqDecision float64.
Proof. solve_decision. Defined.

Definition Fz (z : Z) : float64 := Fin (Qc_of_Z z).

Definition isnan (x : float64) : bool :=
  match x with NaN => true | _ => false end.

Definition is_finite (x : float64) : Prop :=
  match x with Fin _ => True | _ => False end.

Definition fopp (x : float64) : float64 :=
  match x with
  | Fin a => Fin (- a)
  | PInf => NInf
  | NInf => PInf
  | NaN => NaN
  end.

Definition fadd (x y : float64) : float64 :=
  match x, y with
  | NaN, _ | _, NaN => NaN
  | Fin a, Fin b => Fin (a + b)
  | PInf, NInf | NInf, PInf => NaN
  | PInf, _ | _, PInf => PInf
  | NInf, _ | _, NInf => NInf
  end.

Definition fsub (x y : float64) : float64 := fadd x (fopp y).

(** The sign of a non-finite product or quotient: [Some true] for a
    positive factor, [Some false] for a negative one, [None] for zero. *)
Definition sign (a : Qc) : option bool :=
  if decide (0 < a) then Some true
  else if decide (a < 0) then Some false
  else None.

Definition inf_of (positive : bool) : float64 :=
  if positive then PInf else NInf.

Definition fmul (x y : float64) : float64 :=
  match x, y with
  | NaN, _ | _, NaN => NaN
  | Fin a, Fin b => Fin (a * b)
  | Fin a, PInf | PInf, Fin a =>
      match sign a with Some s => inf_of s | None => NaN end
  | Fin a, NInf | NInf, Fin a =>
      match sign a with Some s => inf_of (negb s) | None => NaN end
  | PInf, PInf | NInf, NInf => PInf
  | PInf, NInf | NInf, PInf => NInf
  end.

Definition fdiv (x y : float64) : float64 :=
  match x, y with
  | NaN, _ | _, NaN => NaN
  | Fin a, Fin b =>
      if decide (b = 0)
      then match sign a with Some s => inf_of s | None => NaN end
      else Fin (a / b)
  | Fin _, (PInf | NInf) => Fin 0
  | PInf, Fin b => if decide (b < 0) then NInf else PInf
  | NInf, Fin b => if decide (b < 0) then PInf else NInf
  | (PInf | NInf), (PInf | NInf) => NaN
  end.

(** [x ** n] for a non-negative integer exponent. *)
Fixpoint fpow (x : float64) (n : nat) : float64 :=
  match n with
  | O => Fin 1
  | S n' => fmul x (fpow x n')
  end.

(** [x == 0]; false on [nan]. *)
Definition is_zero (x : float64) : bool :=
  match x with Fin a => bool_decide (a = 0) | _ => false end.

(** [x < y]; false as soon as one side is [nan]. *)
Definition flt (x y : float64) : Prop :=
  match x, y with
  | Fin a, Fin b => a < b
  | NInf, (Fin _ | PInf) => True
  | Fin _, PInf => True
  | _, _ => False
  end.

Declare Scope float_scope.
Delimit Scope float_scope with F.
Bind Scope float_scope with float64.
Infix "+" := fadd : float_scope.
Infix "-" := fsub : float_scope.
Infix "*" := fmul : float_scope.
Infix "/" := fdiv : float_scope.
Infix "**" := fpow (at level 30, right associativity) : float_scope.
Infix "<" := flt : float_scope.

(** The tax rate is written [0.21] throughout the script. *)
Definition tax_rate : float64 := Fin (Q2Qc (21 # 100)).

(** ** The numpy functions the script calls *)

Module np.

(** [np.prod]: the product of the entries, [1.0] for an empty array. *)
Definition prod (a : list float64) : float64 := foldl fmul (Fin 1) a.

(** [arange(0, num)] as floats. *)
Definition arange (num : nat) : list float64 :=
  (λ k : nat, Fz (Z.of_nat k)) <$> seq 0 num.

(** [y[-1] = stop]. *)
Definition set_last (y : list float64) (stop : float64) : list float64 :=
  <[pred (length y) := stop]> y.

(** [np.linspace(start, stop, num)] with the default [endpoint=True],
    following numpy's body: the step is [delta / div] with
    [div = num - 1]; a zero step takes the branch for denormals; a single
    sample has no step and is [0 * delta + start]; the last of two or more
    samples is overwritten with [stop]. *)
Definition linspace (start stop : float64) (num : nat) : list float64 :=
  let div := (num - 1)%nat in
  let delta := (stop - start)%F in
  let y := arange num in
  let y :=
    if decide (0 < div)%nat then
      let step := (delta / Fz (Z.of_nat div))%F in
      if is_zero step
      then (λ v, v / Fz (Z.of_nat div) * delta)%F <$> y
      else (λ v, v * step)%F <$> y
    else (λ v, v * delta)%F <$> y in
  let y := (λ v, v + start)%F <$> y in
  if decide (1 < num)%nat then set_last y stop else y.

End np.

(** ** Exceptions and results *)

(** The exceptions the modelled code can raise, each with the text that
    [str(e)] prints. *)
Inductive exn : Type :=
  | KeyError (key : string)
  | IndexError (msg : string)
  | TypeError (msg : string)
  | ValueError (msg : string)
  | OSError (msg : string).

Definition str (e : exn) : string :=
  match e with
  | KeyError key => "'" +:+ key +:+ "'"
  | IndexError msg | TypeError msg | ValueError msg | OSError msg => msg
  end.

Inductive result (A : Type) : Type :=
  | Ok (a : A)
  | Raise (e : exn).
Arguments Ok {A} a.
Arguments Raise {A} e.

(** ** The pandas objects and methods the script uses

    A column read from the file is numeric: a [Series] is the list of its
    values in index order.  All the series the script combines come from the
    same frame, so they share their index and pandas' alignment is the
    position-wise pairing.

    Only float columns are modelled.  A column of integers (whose
    arithmetic is that of int64) and a column with a text cell (on which
    the arithmetic raises [TypeError]) are outside this model, and so
    outside every statement below. *)

Module pd.

Record DataFrame : Type := mkDataFrame {
  index : nat;                          (* number of rows *)
  columns : gmap string (list float64)
}.

Definition getitem (df : DataFrame) (col : string) : result (list float64) :=
  match columns df !! col with
  | Some s => Ok s
  | None => Raise (KeyError col)
  end.

(** [df[col] = s] for a series [s] on the frame's index. *)
Definition setitem (df : DataFrame) (col : string) (s : list float64) : DataFrame :=
  mkDataFrame (index df) (<[col := s]> (columns df)).

(** [df[col] = values] for a Python list, whose length pandas checks. *)
Definition setitem_list (df : DataFrame) (col : string) (values : list float64)
  : result DataFrame :=
  if decide (length values = index df)
  then Ok (setitem df col values)
  else Raise (ValueError "Length of values does not match length of index").

(** [s.iloc[-1]] *)
Definition iloc_last (s : list float64) : result float64 :=
  match last s with
  | Some x => Ok x
  | None => Raise (IndexError "single positional indexer is out-of-bounds")
  end.

(** [s.shift(1)] *)
Definition shift (s : list float64) : list float64 :=
  match s with
  | [] => []
  | _ :: _ => NaN :: removelast s
  end.

(** [s.ffill()]: a missing value takes the last valid one before it. *)
Fixpoint ffill_from (prev : float64) (s : list float64) : list float64 :=
  match s with
  | [] => []
  | x :: s' =>
      let v := if isnan x then prev else x in
      v :: ffill_from v s'
  end.

Definition ffill (s : list float64) : list float64 := ffill_from NaN s.

(** [s.pct_change()] with its defaults ([periods=1], [fill_method='pad']):
    [data / data.shift(1) - 1] on the forward-filled data. *)
Definition pct_change (s : list float64) : list float64 :=
  let data := ffill s in
  (λ r, r - Fin 1)%F <$> zip_with fdiv data (shift data).

(** [s.mean()] with the default [skipna=True]: the sum of the values that
    are not [nan] over their count, [nan] when there is none. *)
Definition mean (s : list float64) : float64 :=
  let count := length (filter (λ x, isnan x = false) s) in
  let the_sum := foldl fadd (Fin 0) ((λ x, if isnan x then Fin 0 else x) <$> s) in
  if decide (0 < count)%nat then (the_sum / Fz (Z.of_nat count))%F else NaN.

End pd.

(** ** Python values

    The values a method returns or that change type at run time: [None], a
    bool, a float, a series, the result dictionary (in insertion order) and
    the list of figures. *)
Inductive pyobj : Type :=
  | PyNone
  | PyBool (b : bool)
  | PyFloat (x : float64)
  | PySeries (s : list float64)
  | PyStr (s : string)
  | PyDict (d : list (string * float64))
  | PyFigures.

(** [a + b] on a float or a series. *)
Definition py_add (a b : pyobj) : result pyobj :=
  match a, b with
  | PyFloat x, PyFloat y => Ok (PyFloat (x + y))
  | PyFloat x, PySeries s => Ok (PySeries ((λ v, x + v)%F <$> s))
  | PySeries s, PyFloat y => Ok (PySeries ((λ v, v + y)%F <$> s))
  | PySeries s, PySeries t => Ok (PySeries (zip_with fadd s t))
  | _, _ => Raise (TypeError "unsupported operand type(s) for +")
  end.

(** [float(a)]: pandas converts a series of exactly one element and refuses
    any other. *)
Definition py_float (a : pyobj) : result float64 :=
  match a with
  | PyFloat x => Ok x
  | PySeries [x] => Ok x
  | PySeries _ => Raise (TypeError "cannot convert the series to <class 'float'>")
  | _ => Raise (TypeError "float() argument must be a string or a real number")
  end.

(** ** The analysis object and the monad of its methods *)

Record DCFAnalysis : Type := mkDCFAnalysis {
  statements : option pd.DataFrame;
  projections : option pd.DataFrame;
  wacc : option float64;
  terminal_growth : option float64;
  projection_years : option nat
}.

(** [DCFAnalysis.__init__] *)
Definition init : DCFAnalysis := mkDCFAnalysis None None None None None.

Definition set_statements (v : option pd.DataFrame) (o : DCFAnalysis) : DCFAnalysis :=
  mkDCFAnalysis v (projections o) (wacc o) (terminal_growth o) (projection_years o).

Definition set_projections (v : option pd.DataFrame) (o : DCFAnalysis) : DCFAnalysis :=
  mkDCFAnalysis (statements o) v (wacc o) (terminal_growth o) (projection_years o).

Definition set_assumptions (w g : float64) (n : nat) (o : DCFAnalysis) : DCFAnalysis :=
  mkDCFAnalysis (statements o) (projections o) (Some w) (Some g) (Some n).

(** What a run can change: the object [self] and the console. *)
Record world : Type := mkWorld {
  self : DCFAnalysis;
  stdout : list string
}.

(** A method body: it reads and updates the world and either returns or
    raises; what it changed before raising stays changed. *)
Definition M (A : Type) : Type := world → result A * world.

Definition ret {A} (a : A) : M A := λ w, (Ok a, w).

Definition raise {A} (e : exn) : M A := λ w, (Raise e, w).

Definition bind {A B} (m : M A) (k : A → M B) : M B :=
  λ w, match m w with
       | (Ok a, w') => k a w'
       | (Raise e, w') => (Raise e, w')
       end.

Notation "'do' x <- m ; k" := (bind m (λ x, k))
  (at level 10, x name, m at level 100, k at level 200).
Notation "m ;; k" := (bind m (λ _, k))
  (at level 100, k at level 200, right associativity).

(** [try: body / except Exception as e: handler] *)
Definition try_except {A} (body : M A) (handler : exn → M A) : M A :=
  λ w, match body w with
       | (Ok a, w') => (Ok a, w')
       | (Raise e, w') => handler e w'
       end.

Definition lift {A} (r : result A) : M A := λ w, (r, w).

(** A printed line joins [stdout]; the blank line that some messages
    start with is not kept. *)
Definition print (line : string) : M unit :=
  λ w, (Ok (), mkWorld (self w) (stdout w ++ [line])).

Definition get_self : M DCFAnalysis := λ w, (Ok (self w), w).

Definition modify_self (f : DCFAnalysis → DCFAnalysis) : M unit :=
  λ w, (Ok (), mkWorld (f (self w)) (stdout w)).

(** Reading an attribute for use as a frame or a number: on [None] the
    operation that follows raises [TypeError] with the text [message]. *)
Definition attr {A} (field : DCFAnalysis → option A) (message : string) : M A :=
  do o <- get_self;
  match field o with
  | Some v => ret v
  | None => raise (TypeError message)
  end.

(** [self.statements[col]] and [self.projections[col]] *)
Definition statements_col (col : string) : M (list float64) :=
  do df <- attr statements "'NoneType' object is not subscriptable";
  lift (pd.getitem df col).

Definition projections_col (col : string) : M (list float64) :=
  do df <- attr projections "'NoneType' object is not subscriptable";
  lift (pd.getitem df col).

(** [self.statements[col] = s] *)
Definition statements_set (col : string) (s : list float64) : M unit :=
  do df <- attr statements "'NoneType' object does not support item assignment";
  modify_self (set_statements (Some (pd.setitem df col s))).

Definition projections_set (col : string) (s : list float64) : M unit :=
  do df <- attr projections
                    "'NoneType' object does not support item assignment";
  modify_self (set_projections (Some (pd.setitem df col s))).

(** A [try] body either runs a [return v] ([Some v]) or falls through to the
    statement after the [try] ([None]). *)
Definition returned (v : pyobj) : M (option pyobj) := ret (Some v).
Definition fall_through : M (option pyobj) := ret None.

(** The statement after the [try], or the end of the function, which
    returns [None]. *)
Definition then_return (m : M (option pyobj)) (after : pyobj) : M pyobj :=
  do r <- m;
  match r with
  | Some v => ret v
  | None => ret after
  end.

(** ** [DCFAnalysis.calculate_free_cash_flow] *)

Definition calculate_free_cash_flow : M pyobj :=
  then_return
    (try_except
       (do revenue <- statements_col "Revenue";
        do opex <- statements_col "Operating_Expenses";
        statements_set "EBIT" (zip_with fsub revenue opex);;
        do ebit <- statements_col "EBIT";
        statements_set "NOPAT" ((λ v, v * (Fin 1 - tax_rate))%F <$> ebit);;
        do nopat <- statements_col "NOPAT";
        do depreciation <- statements_col "Depreciation";
        do capex <- statements_col "Capex";
        do cwc <- statements_col "Change_Working_Capital";
        statements_set "FCF"
          (zip_with fsub (zip_with fsub (zip_with fadd nopat depreciation) capex) cwc);;
        do fcf <- statements_col "FCF";
        returned (PySeries fcf))
       (λ e,
          print ("Error calculating free cash flow: " +:+ str e);;
          returned PyNone))
    PyNone.

(** ** [DCFAnalysis.project_financials] *)

(** [[base_revenue * np.prod(1 + growth_rates[:i]) for i in range(1, n + 1)]] *)
Definition projected_revenue (base_revenue : float64) (growth_rates : list float64)
    (n : nat) : list float64 :=
  (λ i, base_revenue * np.prod ((λ g, Fin 1 + g)%F <$> take i growth_rates))%F
    <$> seq 1 n.

(** [self.statements['Revenue'].pct_change().mean()] *)
Definition historical_growth_of (revenue : list float64) : float64 :=
  pd.mean (pd.pct_change revenue).

(** [(self.statements['EBIT'] / self.statements['Revenue']).mean()] *)
Definition avg_margin_of (ebit revenue : list float64) : float64 :=
  pd.mean (zip_with fdiv ebit revenue).

Definition project_financials : M pyobj :=
  then_return
    (try_except
       (do revenue <- statements_col "Revenue";
        let historical_growth := historical_growth_of revenue in
        do n <- attr projection_years
               "unsupported operand type(s) for +: 'NoneType' and 'int'";
        modify_self (set_projections (Some (pd.mkDataFrame n ∅)));;
        do terminal <- attr terminal_growth
                      "unsupported operand type(s) for *: 'NoneType' and 'float'";
        let growth_rates := np.linspace historical_growth terminal n in
        do revenue <- statements_col "Revenue";
        do base_revenue <- lift (pd.iloc_last revenue);
        do df <- attr projections
                    "'NoneType' object does not support item assignment";
        do df <- lift (pd.setitem_list df "Revenue"
                         (projected_revenue base_revenue growth_rates n));
        modify_self (set_projections (Some df));;
        do ebit <- statements_col "EBIT";
        do revenue <- statements_col "Revenue";
        let avg_margin := avg_margin_of ebit revenue in
        do p_revenue <- projections_col "Revenue";
        projections_set "EBIT" ((λ v, v * avg_margin)%F <$> p_revenue);;
        do p_ebit <- projections_col "EBIT";
        projections_set "FCF" ((λ v, v * (Fin 1 - tax_rate))%F <$> p_ebit);;
        (* astype(float) leaves float columns as they are *)
        fall_through)
       (λ e,
          print ("Error projecting financials: " +:+ str e);;
          returned PyNone))
    PyNone.

(** ** [DCFAnalysis.calculate_dcf_value] *)

(** One item of the generator handed to [sum]:
    [self.projections['FCF'] / (1 + self.wacc) ** year], the whole column
    divided by the discount factor of [year]. *)
Definition discounted (year : nat) : M pyobj :=
  do fcf <- projections_col "FCF";
  do w <- attr wacc "unsupported operand type(s) for +: 'int' and 'NoneType'";
  ret (PySeries ((λ v, v / (Fin 1 + w) ** year)%F <$> fcf)).

(** [sum(item(year) for year in years)], from the start value [acc]. *)
Fixpoint py_sum (item : nat → M pyobj) (years : list nat) (acc : pyobj) : M pyobj :=
  match years with
  | [] => ret acc
  | year :: rest =>
      do v <- item year;
      do acc' <- lift (py_add acc v);
      py_sum item rest acc'
  end.

Definition calculate_dcf_value : M pyobj :=
  then_return
    (try_except
       (do n <- attr projection_years
               "unsupported operand type(s) for +: 'NoneType' and 'int'";
        do pv_fcf <- py_sum discounted (seq 1 n) (PyFloat (Fin 0));
        do fcf <- projections_col "FCF";
        do last_fcf <- lift (pd.iloc_last fcf);
        do g <- attr terminal_growth
               "unsupported operand type(s) for +: 'int' and 'NoneType'";
        let terminal_fcf := (last_fcf * (Fin 1 + g))%F in
        do w <- attr wacc "unsupported operand type(s) for -: 'NoneType' and 'float'";
        let terminal_value := (terminal_fcf / (w - g))%F in
        let pv_terminal := (terminal_value / (Fin 1 + w) ** n)%F in
        do total_value <- lift (py_add pv_fcf (PyFloat pv_terminal));
        do r_pv_fcf <- lift (py_float pv_fcf);
        do r_terminal_value <- lift (py_float (PyFloat terminal_value));
        do r_pv_terminal <- lift (py_float (PyFloat pv_terminal));
        do r_total_value <- lift (py_float total_value);
        returned (PyDict [("PV of FCF", r_pv_fcf);
                          ("Terminal Value", r_terminal_value);
                          ("PV of Terminal Value", r_pv_terminal);
                          ("Total Value", r_total_value)]))
       (λ e,
          print ("Error calculating DCF value: " +:+ str e);;
          returned PyNone))
    PyNone.

(** ** Truth tests of the caller *)

(** [x is None] *)
Definition is_none (x : pyobj) : bool :=
  match x with PyNone => true | _ => false end.

(** The truth value [if not x] tests. *)
Definition truthy (x : pyobj) : bool :=
  match x with
  | PyNone => false
  | PyBool b => b
  | PyFloat x => negb (is_zero x)
  | PySeries _ => true
  | PyStr s => negb (bool_decide (s = ""))
  | PyDict d => negb (bool_decide (d = []))
  | PyFigures => true
  end.

(** ** The methods and functions that reach outside the process *)

Section External.

(** The file system, the plotting and PDF libraries and the number
    formatter are outside the script. *)
Variable read_csv : string → result pd.DataFrame.
Variable to_csv : pd.DataFrame → string → result unit.
Variable os_remove : string → result unit.
Variable draw_figures : DCFAnalysis → result unit.
Variable build_pdf : DCFAnalysis → list (string * float64) → string → result unit.
Variable format_money : float64 → string.

Definition required_columns : list string :=
  ["Revenue"; "Operating_Expenses"; "Depreciation"; "Capex"; "Change_Working_Capital"].

(** [[col for col in required_columns if col not in df.columns]] *)
Definition missing_columns (df : pd.DataFrame) : list string :=
  filter (λ col, pd.columns df !! col = None) required_columns.

(** [DCFAnalysis.load_data] *)
Definition load_data (filepath : string) : M pyobj :=
  then_return
    (try_except
       (do df <- lift (read_csv filepath);
        modify_self (set_statements (Some df));;
        let missing := missing_columns df in
        match missing with
        | _ :: _ =>
            raise (ValueError ("Missing required columns: " +:+ String.concat ", " missing))
        | [] =>
            print "Financial statements loaded successfully!";;
            fall_through
        end)
       (λ e,
          print ("Error loading file: " +:+ str e);;
          returned (PyBool false)))
    (PyBool true).

(** [DCFAnalysis.create_visualizations]: the drawing is the plotting
    library's. *)
Definition create_visualizations : M pyobj :=
  then_return
    (try_except
       (do o <- get_self;
        lift (draw_figures o);;
        returned PyFigures)
       (λ e,
          print ("Error creating visualizations: " +:+ str e);;
          returned PyNone))
    PyNone.

(** [{k: type(v) for k, v in dcf_value.items()}] as [print] shows it, the
    values being floats. *)
Definition types_repr (dcf_value : list (string * float64)) : string :=
  "{" +:+ String.concat ", " ((λ kv, "'" +:+ kv.1 +:+ "': <class 'float'>") <$> dcf_value)
  +:+ "}".

(** [DCFAnalysis.generate_pdf_report]: the document is the PDF
    library's. *)
Definition generate_pdf_report (figures : pyobj) (dcf_value : list (string * float64))
    (output_filename : string) : M pyobj :=
  then_return
    (try_except
       (do o <- get_self;
        lift (build_pdf o dcf_value output_filename);;
        print ("PDF report generated: " +:+ output_filename);;
        returned (PyBool true))
       (λ e,
          print ("Error generating PDF report: " +:+ str e);;
          print ("DCF Values types: " +:+ types_repr dcf_value);;
          returned (PyBool false)))
    PyNone.

(** The five synthetic years of [create_test_data]:
    [[start * growth ** i for i in range(5)]]. *)
Definition synthetic (start : Z) (growth : Q) : list float64 :=
  (λ i, Fz start * Fin (Q2Qc growth) ** i)%F <$> seq 0 5.

Definition test_frame : pd.DataFrame :=
  pd.mkDataFrame 5
    (list_to_map
       [("Year", (λ y : nat, Fz (Z.of_nat y)) <$> seq 2020 5);
        ("Revenue", synthetic 1000000 (11 # 10));
        ("Operating_Expenses", synthetic 800000 (108 # 100));
        ("Depreciation", synthetic 50000 (105 # 100));
        ("Capex", synthetic 70000 (105 # 100));
        ("Change_Working_Capital", synthetic 20000 (103 # 100))]).

(** [create_test_data] *)
Definition create_test_data (filename : string) : M pyobj :=
  then_return
    (try_except
       (lift (to_csv test_frame filename);;
        print ("Test data created successfully: " +:+ filename);;
        returned (PyStr filename))
       (λ e,
          print ("Error creating test data: " +:+ str e);;
          returned PyNone))
    PyNone.

Fixpoint print_values (d : list (string * float64)) : M unit :=
  match d with
  | [] => ret ()
  | (k, v) :: d' => print (k +:+ ": $" +:+ format_money v);; print_values d'
  end.

(** [test_run], the caller of the stages.  Each [if ...: return] is one
    branch; the result of [project_financials] is dropped, as in the
    source.  The console is kept line by line, without the blank lines that
    the leading newlines of some messages print. *)
Definition test_run : M pyobj :=
  print "Starting DCF Analysis test run...";;
  do test_file <- create_test_data "test_financial_data.csv";
  if negb (truthy test_file) then ret PyNone else
  modify_self (λ _, init);;
  do loaded <- load_data (match test_file with PyStr f => f | _ => "" end);
  if negb (truthy loaded) then ret PyNone else
  modify_self (set_assumptions (Fin (Q2Qc (10 # 100))) (Fin (Q2Qc (2 # 100))) 5);;
  print "Test inputs:";;
  print "WACC: 0.1";;
  print "Terminal Growth: 0.02";;
  print "Projection Years: 5";;
  do fcf <- calculate_free_cash_flow;
  if is_none fcf then ret PyNone else
  project_financials;;
  do dcf_value <- calculate_dcf_value;
  if is_none dcf_value then ret PyNone else
  print "DCF Values:";;
  print_values (match dcf_value with PyDict d => d | _ => [] end);;
  do figures <- create_visualizations;
  if is_none figures then ret PyNone else
  do reported <- generate_pdf_report figures
                   (match dcf_value with PyDict d => d | _ => [] end)
                   "test_dcf_analysis.pdf";
  if negb (truthy reported) then ret PyNone else
  print "Test run completed successfully!";;
  print "Please check 'test_dcf_analysis.pdf' for the results.";;
  try_except
    (lift (os_remove (match test_file with PyStr f => f | _ => "" end));;
     print "Test data file cleaned up.";;
     ret PyNone)
    (λ e,
       print ("Error cleaning up test file: " +:+ str e);;
       ret PyNone).

End External.

(** Running a method on an object with an empty console. *)
Definition run {A} (m : M A) (o : DCFAnalysis) : result A * world :=
  m (mkWorld o []).

(** ** The formulas of the specification, over the rationals

    These follow the words of the specification and not the code; the
    theorems below compare the code with them. *)

(** A count as a rational. *)
Definition Qn (k : nat) : Qc := Qc_of_Z (Z.of_nat k).

(** [n] evenly spaced values that start at [a], with the spacing that
    reaches [b] at the last of them. *)
Definition evenly_spaced (a b : Qc) (n : nat) : list Qc :=
  (λ k, a + Qn k * ((b - a) / Qn (n - 1))) <$> seq 0 n.

Definition sum_q (l : list Qc) : Qc := foldr Qcplus 0 l.

Definition prod_q (l : list Qc) : Qc := foldr Qcmult 1 l.

(** Revenue of the projected years [1..n]: the last historical revenue
    times the product of [1 + growthRates[k]] for [k = 1..i]. *)
Definition revenue_path (base : Qc) (growth_rates : list Qc) (n : nat) : list Qc :=
  (λ i, base * prod_q ((λ g, 1 + g) <$> take i growth_rates)) <$> seq 1 n.

(** The mean of a sequence of values. *)
Definition mean_q (l : list Qc) : Qc := sum_q l / Qc_of_Z (Z.of_nat (length l)).

(** Period-over-period growth rates; the first record gives none. *)
Fixpoint growth_observations (revenue : list Qc) : list Qc :=
  match revenue with
  | r0 :: (r1 :: _) as rest => (r1 / r0 - 1) :: growth_observations rest
  | _ => []
  end.

(** EBIT over Revenue, record by record. *)
Definition margins (ebit revenue : list Qc) : list Qc := zip_with Qcdiv ebit revenue.

(** [1 / (1 + WACC)^year] summed over the projected years, applied to the
    cash flow of each year. *)
Definition pv_fcf_spec (fcf : list Qc) (w : Qc) : Qc :=
  sum_q (imap (λ k f, f / (1 + w) ^ (S k)) fcf).

Definition terminal_value_spec (last_fcf w g : Qc) : Qc :=
  last_fcf * (1 + g) / (w - g).

(** The four values of a valuation, as the specification writes them. *)
Definition valuation_spec (fcf : list Qc) (w g : Qc) : option (Qc * Qc * Qc * Qc) :=
  match last fcf with
  | Some last_fcf =>
      let pv_fcf := pv_fcf_spec fcf w in
      let terminal_value := terminal_value_spec last_fcf w g in
      let pv_terminal := terminal_value / (1 + w) ^ length fcf in
      Some (pv_fcf, terminal_value, pv_terminal, pv_fcf + pv_terminal)
  | None => None
  end.

(** [x <= y]; false as soon as one side is [nan]. *)
Definition fle (x y : float64) : Prop :=
  match x, y with
  | Fin a, Fin b => a ≤ b
  | NInf, (Fin _ | PInf | NInf) => True
  | (Fin _ | PInf), PInf => True
  | _, _ => False
  end.

(** The first entry of a series, as a fraction, when it is finite. *)
Definition first_value (s : list float64) : option Q :=
  match s with
  | Fin q :: _ => Some (this q)
  | _ => None
  end.

(** A series that does not fall from any year to the next. *)
Fixpoint never_decreasing (s : list float64) : Prop :=
  match s with
  | x :: (y :: _) as rest => fle x y ∧ never_decreasing rest
  | _ => True
  end.

(** A series that grows from each year to the next. *)
Fixpoint increasing (s : list float64) : Prop :=
  match s with
  | x :: (y :: _) as rest => (x < y)%F ∧ increasing rest
  | _ => True
  end.

(** ** What a method may change *)

(** Every run of [m] leaves the world related by [R] to what it was. *)
Definition preserves (R : relation world) {A} (m : M A) : Prop :=
  ∀ w r w', m w = (r, w') → R w w'.

(** A relation on the object, whatever is printed. *)
Definition on_self (R : relation DCFAnalysis) : relation world :=
  λ w w', R (self w) (self w').

(** A relation on the object, with nothing printed. *)
Definition silently (R : relation DCFAnalysis) : relation world :=
  λ w w', R (self w) (self w') ∧ stdout w' = stdout w.

(** Only the projection differs. *)
Definition same_but_projections (o o' : DCFAnalysis) : Prop :=
  statements o' = statements o
  ∧ wacc o' = wacc o
  ∧ terminal_growth o' = terminal_growth o
  ∧ projection_years o' = projection_years o.

(** Only the statements differ. *)
Definition same_but_statements (o o' : DCFAnalysis) : Prop :=
  projections o' = projections o
  ∧ wacc o' = wacc o
  ∧ terminal_growth o' = terminal_growth o
  ∧ projection_years o' = projection_years o.

(** ** Sample inputs *)

Definition rate (percent : Z) : float64 := Fin (Q2Qc (percent # 100)).

(** An object holding the table [df], with the assumptions of [test_run]:
    WACC 0.10, terminal growth 0.02, five years. *)
Definition analysis_of (df : pd.DataFrame) : DCFAnalysis :=
  mkDCFAnalysis (Some df) None (Some (rate 10)) (Some (rate 2)) (Some 5%nat).

(** The same with a single projected year. *)
Definition one_year_analysis_of (df : pd.DataFrame) : DCFAnalysis :=
  mkDCFAnalysis (Some df) None (Some (rate 10)) (Some (rate 2)) (Some 1%nat).

(** An object whose projection failed before any column was stored. *)
Definition failed_projection : DCFAnalysis :=
  mkDCFAnalysis None (Some (pd.mkDataFrame 5 ∅)) (Some (rate 10)) (Some (rate 2))
    (Some 5%nat).

(** A file with the header line and no record. *)
Definition header_only_frame : pd.DataFrame :=
  pd.mkDataFrame 0
    (list_to_map ((λ col, (col, [])) <$>
       ["Revenue"; "Operating_Expenses"; "Depreciation"; "Capex";
        "Change_Working_Capital"])).

(** Two years of history, with EBIT already derived. *)
Definition two_record_frame : pd.DataFrame :=
  pd.mkDataFrame 2
    (list_to_map
       [("Revenue", [Fz 100; Fz 110]);
        ("Operating_Expenses", [Fz 80; Fz 90]);
        ("Depreciation", [Fz 5; Fz 5]);
        ("Capex", [Fz 7; Fz 7]);
        ("Change_Working_Capital", [Fz 2; Fz 2]);
        ("EBIT", [Fz 20; Fz 20])]).

(** A table that lacks the Capex column. *)
Definition no_capex_frame : pd.DataFrame :=
  pd.mkDataFrame 1
    (list_to_map
       [("Revenue", [Fz 100]);
        ("Operating_Expenses", [Fz 80]);
        ("Depreciation", [Fz 5]);
        ("Change_Working_Capital", [Fz 2])]).

(** An object with a projection of the cash flows [fcf] over [n] years. *)
Definition projected (fcf : list float64) (w g : float64) (n : nat) : DCFAnalysis :=
  mkDCFAnalysis None
    (Some (pd.mkDataFrame (length fcf) (<["FCF" := fcf]> ∅)))
    (Some w) (Some g) (Some n).

(** A file system that reads back the table that was written. *)
Definition read_back (df : pd.DataFrame) : string → result pd.DataFrame := λ _, Ok df.
Definition written : pd.DataFrame → string → result unit := λ _ _, Ok ().

(** * Properties *)

(** ** Running the monad *)

Lemma bind_ok {A B} (m : M A) (k : A → M B) w a w' :
  m w = (Ok a, w') → bind m k w = k a w'.
Proof. unfold bind. by intros ->. Qed.

Lemma bind_raise {A B} (m : M A) (k : A → M B) w e w' :
  m w = (Raise e, w') → bind m k w = (Raise e, w').
Proof. unfold bind. by intros ->. Qed.

Lemma try_except_ok {A} (body : M A) handler w a w' :
  body w = (Ok a, w') → try_except body handler w = (Ok a, w').
Proof. unfold try_except. by intros ->. Qed.

Lemma try_except_raise {A} (body : M A) handler w e w' :
  body w = (Raise e, w') → try_except body handler w = handler e w'.
Proof. unfold try_except. by intros ->. Qed.

Lemma then_return_returned m after w v w' :
  m w = (Ok (Some v), w') → then_return m after w = (Ok v, w').
Proof. unfold then_return, bind. by intros ->. Qed.

Lemma then_return_fall_through m after w w' :
  m w = (Ok None, w') → then_return m after w = (Ok after, w').
Proof. unfold then_return, bind. by intros ->. Qed.

Lemma statements_col_ok o out df col s :
  statements o = Some df → pd.columns df !! col = Some s →
  statements_col col (mkWorld o out) = (Ok s, mkWorld o out).
Proof.
  intros Hst Hcol. unfold statements_col, attr, bind, get_self, lift, ret, pd.getitem.
  cbn. by rewrite Hst, Hcol.
Qed.

Lemma projections_col_ok o out df col s :
  projections o = Some df → pd.columns df !! col = Some s →
  projections_col col (mkWorld o out) = (Ok s, mkWorld o out).
Proof.
  intros Hst Hcol. unfold projections_col, attr, bind, get_self, lift, ret, pd.getitem.
  cbn. by rewrite Hst, Hcol.
Qed.

Lemma statements_set_ok o out df col s :
  statements o = Some df →
  statements_set col s (mkWorld o out)
  = (Ok (), mkWorld (set_statements (Some (pd.setitem df col s)) o) out).
Proof.
  intros Hst. unfold statements_set, attr, bind, get_self, modify_self, ret.
  cbn. by rewrite Hst.
Qed.

Lemma projections_set_ok o out df col s :
  projections o = Some df →
  projections_set col s (mkWorld o out)
  = (Ok (), mkWorld (set_projections (Some (pd.setitem df col s)) o) out).
Proof.
  intros Hst. unfold projections_set, attr, bind, get_self, modify_self, ret.
  cbn. by rewrite Hst.
Qed.

Lemma attr_ok {A} (field : DCFAnalysis → option A) what o out v :
  field o = Some v → attr field what (mkWorld o out) = (Ok v, mkWorld o out).
Proof. intros H. unfold attr, bind, get_self, ret. cbn. by rewrite H. Qed.

Lemma set_statements_twice a b o :
  set_statements a (set_statements b o) = set_statements a o.
Proof. by destruct o. Qed.

Lemma set_projections_twice a b o :
  set_projections a (set_projections b o) = set_projections a o.
Proof. by destruct o. Qed.

(** Looking a column up in a frame some columns of which were just set. *)
Ltac column :=
  cbn [pd.columns pd.setitem statements projections set_statements set_projections];
  repeat (rewrite lookup_insert_ne by done);
  first [ apply lookup_insert_eq | eassumption ].

(** One statement of a method body that completes. *)
Ltac step :=
  first
    [ erewrite bind_ok by (eapply statements_col_ok; [ reflexivity || eassumption | column ])
    | erewrite bind_ok by (eapply projections_col_ok; [ reflexivity || eassumption | column ])
    | erewrite bind_ok by (eapply statements_set_ok; reflexivity || eassumption)
    | erewrite bind_ok by (eapply projections_set_ok; reflexivity || eassumption)
    | erewrite bind_ok by (eapply attr_ok; reflexivity || eassumption) ];
  rewrite ?set_statements_twice, ?set_projections_twice.

(** ** Loading *)

Section Loading.

Variable read_csv : string → result pd.DataFrame.

Lemma missing_columns_nonempty df col :
  col ∈ required_columns → pd.columns df !! col = None → missing_columns df ≠ [].
Proof.
  intros Hin Hnone Hnil.
  assert (col ∈ missing_columns df) as Hmiss
    by (unfold missing_columns; apply list_elem_of_filter; done).
  rewrite Hnil in Hmiss. by apply not_elem_of_nil in Hmiss.
Qed.


End Loading.

(** ** Free cash flow *)

Lemma zip_with_lookup_Some {A B C} (f : A → B → C) l k i x y :
  l !! i = Some x → k !! i = Some y → zip_with f l k !! i = Some (f x y).
Proof. intros Hx Hy. rewrite lookup_zip_with. by rewrite Hx, Hy. Qed.

(** C2.  On a loaded table (the five required columns, of floats, one value
    per row)
    [calculate_free_cash_flow] succeeds, prints nothing, and leaves in
    [statements] the same table with the columns EBIT, NOPAT and FCF added:
    in every row EBIT = Revenue - Operating_Expenses,
    NOPAT = EBIT * (1 - 0.21) and
    FCF = NOPAT + Depreciation - Capex - Change_Working_Capital.  The value
    handed back is the FCF column of that table. *)
Theorem calculate_free_cash_flow_rows o out df revenue opex depreciation capex cwc :
  statements o = Some df →
  pd.columns df !! "Revenue" = Some revenue →
  pd.columns df !! "Operating_Expenses" = Some opex →
  pd.columns df !! "Depreciation" = Some depreciation →
  pd.columns df !! "Capex" = Some capex →
  pd.columns df !! "Change_Working_Capital" = Some cwc →
  length revenue = pd.index df →
  length opex = pd.index df →
  length depreciation = pd.index df →
  length capex = pd.index df →
  length cwc = pd.index df →
  ∃ ebit nopat fcf,
    calculate_free_cash_flow (mkWorld o out)
    = (Ok (PySeries fcf),
       mkWorld
         (set_statements
            (Some (pd.mkDataFrame (pd.index df)
                     (<["FCF" := fcf]> (<["NOPAT" := nopat]> (<["EBIT" := ebit]>
                        (pd.columns df))))))
            o)
         out)
    ∧ length ebit = pd.index df
    ∧ length nopat = pd.index df
    ∧ length fcf = pd.index df
    ∧ ∀ i r x d c w,
        revenue !! i = Some r → opex !! i = Some x → depreciation !! i = Some d →
        capex !! i = Some c → cwc !! i = Some w →
        ebit !! i = Some (r - x)%F
        ∧ nopat !! i = Some ((r - x) * (Fin 1 - tax_rate))%F
        ∧ fcf !! i
          = Some ((r - x) * (Fin 1 - tax_rate) + d - c - w)%F.
Proof.
  intros Hst Hrev Hopex Hdep Hcap Hcwc Lrev Lopex Ldep Lcap Lcwc.
  set (ebit := zip_with fsub revenue opex).
  set (nopat := (λ v, v * (Fin 1 - tax_rate))%F <$> ebit).
  set (fcf := zip_with fsub (zip_with fsub (zip_with fadd nopat depreciation) capex) cwc).
  exists ebit, nopat, fcf.
  assert (length ebit = pd.index df) as Lebit
    by (unfold ebit; rewrite length_zip_with; lia).
  assert (length nopat = pd.index df) as Lnopat
    by (unfold nopat; rewrite length_fmap; lia).
  split; [|split; [done|split; [done|split]]].
  - apply then_return_returned, try_except_ok.
    do 11 step.
    reflexivity.
  - unfold fcf. rewrite !length_zip_with. lia.
  - intros i r x d c w Hr Hx Hd Hc Hw.
    assert (ebit !! i = Some (r - x)%F) as Hebit
      by (unfold ebit; by apply zip_with_lookup_Some).
    assert (nopat !! i = Some ((r - x) * (Fin 1 - tax_rate))%F) as Hnopat
      by (unfold nopat; rewrite list_lookup_fmap, Hebit; done).
    split; [done|split; [done|]].
    unfold fcf. by repeat apply zip_with_lookup_Some.
Qed.

(** ** Arithmetic on finite floats *)

(** Goals on canonical rationals, restated on [Q] for [lra] and [nra]. *)
Ltac qc2q :=
  unfold Qcle, Qclt, Qcminus, Qcdiv, Qcinv, Qcplus, Qcmult, Qcopp, Qn in *;
  cbn [this Q2Qc Qc_of_Z] in *;
  rewrite ?Qred_correct in *.

Lemma Qc_of_Z_0 : Qc_of_Z 0 = 0.
Proof. by apply Qc_is_canon. Qed.

Lemma Qn_0 : Qn 0 = 0.
Proof. apply Qc_of_Z_0. Qed.

Lemma Qn_pos n : (0 < n)%nat → 0 < Qn n.
Proof. intros H. qc2q. unfold inject_Z, Qlt. simpl. lia. Qed.

Lemma Qn_nonzero n : (0 < n)%nat → Qn n ≠ 0.
Proof. intros H E. apply Qn_pos in H. rewrite E in H. by apply Qclt_not_eq in H. Qed.

Lemma Qn_le i j : (i ≤ j)%nat → Qn i ≤ Qn j.
Proof. intros H. qc2q. unfold inject_Z, Qle. simpl. lia. Qed.

(** Two finite floats are equal when their fractions in lowest terms
    are. *)
Lemma Fin_of_this (a b : Qc) : this a = this b → Fin a = Fin b.
Proof. intros E. apply f_equal, Qc_is_canon. rewrite E. reflexivity. Qed.

Lemma fdiv_fin a b : b ≠ 0 → (Fin a / Fin b)%F = Fin (a / b).
Proof. intros H. unfold fdiv. by rewrite decide_False. Qed.

Lemma fadd_0_l x : (Fin 0 + x)%F = x.
Proof. destruct x; [|done..]. unfold fadd. by rewrite Qcplus_0_l. Qed.

Lemma is_zero_fin a : is_zero (Fin a) = bool_decide (a = 0).
Proof. done. Qed.

(** ** The glide path of growth rates *)

Lemma evenly_spaced_length a b n : length (evenly_spaced a b n) = n.
Proof. unfold evenly_spaced. by rewrite length_fmap, length_seq. Qed.

Lemma evenly_spaced_lookup a b n k :
  (k < n)%nat →
  evenly_spaced a b n !! k = Some (a + Qn k * ((b - a) / Qn (n - 1))).
Proof.
  intros H. unfold evenly_spaced. rewrite list_lookup_fmap, lookup_seq_lt by done.
  done.
Qed.

Lemma evenly_spaced_last a b n :
  (2 ≤ n)%nat → evenly_spaced a b n !! (n - 1)%nat = Some b.
Proof.
  intros H. rewrite evenly_spaced_lookup by lia. f_equal.
  assert (Qn (n - 1) ≠ 0) by (apply Qn_nonzero; lia).
  by field.
Qed.

(** With finite endpoints [np.linspace] yields the evenly spaced values,
    whatever the number of samples. *)
Lemma linspace_fin a b n :
  np.linspace (Fin a) (Fin b) n = Fin <$> evenly_spaced a b n.
Proof.
  destruct (decide (1 < n)%nat) as [Hn|Hn].
  - assert (Qn (n - 1) ≠ 0) as Hdiv by (apply Qn_nonzero; lia).
    unfold np.linspace. rewrite !decide_True by lia.
    assert (((λ v, v + Fin a)%F <$>
             (if is_zero ((Fin b - Fin a) / Fz (Z.of_nat (n - 1)))%F
              then (λ v, v / Fz (Z.of_nat (n - 1)) * (Fin b - Fin a))%F <$> np.arange n
              else (λ v, v * ((Fin b - Fin a) / Fz (Z.of_nat (n - 1))))%F <$> np.arange n))
            = Fin <$> evenly_spaced a b n) as ->.
    { unfold np.arange, evenly_spaced, Fz. fold (Qn (n - 1)).
      cbn [fsub fopp fadd]. rewrite fdiv_fin by done. rewrite is_zero_fin.
      case_bool_decide as Hz; rewrite <- !list_fmap_compose;
        apply list_fmap_ext; intros i k _; cbn; fold (Qn k) (Qn (n - 1)).
      - rewrite decide_False by done. cbn. f_equal.
        assert (b - a = 0) as E.
        { destruct (Qcmult_integral _ _ Hz) as [E|E]; [done|].
          pose proof (Qcmult_inv_r _ Hdiv) as H1.
          rewrite E, Qcmult_0_r in H1. by destruct Q_apart_0_1. }
        unfold Qcminus in E |- *. rewrite E. by field.
      - f_equal. unfold Qcminus. by field. }
    unfold np.set_last. rewrite length_fmap, evenly_spaced_length.
    apply list_insert_id. rewrite list_lookup_fmap.
    replace (pred n) with (n - 1)%nat by lia.
    by rewrite evenly_spaced_last by lia.
  - unfold np.linspace. rewrite !decide_False by lia.
    unfold np.arange, evenly_spaced, Fz. rewrite <- !list_fmap_compose.
    apply list_fmap_ext; intros i k Hk; cbn. f_equal.
    apply lookup_seq in Hk as [-> Hk]. assert (i = 0)%nat as -> by lia.
    cbn. fold (Qn 0). rewrite Qn_0. ring.
Qed.

Lemma linspace_one a b : np.linspace (Fin a) (Fin b) 1 = [Fin a].
Proof.
  rewrite linspace_fin. unfold evenly_spaced. cbn. do 2 f_equal.
  fold (Qn 0). rewrite Qn_0. ring.
Qed.

Lemma Fin_inj_this a b : Fin a = Fin b → this a = this b.
Proof. by intros [= ->]. Qed.

Lemma Qn_inv_nonneg n : 0 ≤ / Qn n.
Proof.
  qc2q. apply Qinv_le_0_compat. unfold inject_Z, Qle. simpl. lia.
Qed.

Lemma evenly_spaced_monotone a b n i j x y :
  (i ≤ j)%nat →
  evenly_spaced a b n !! i = Some x →
  evenly_spaced a b n !! j = Some y →
  (b ≤ a → y ≤ x) ∧ (a ≤ b → x ≤ y).
Proof.
  intros Hij Hx Hy.
  assert (j < n)%nat as Hj
    by (apply lookup_lt_Some in Hy; by rewrite evenly_spaced_length in Hy).
  rewrite evenly_spaced_lookup in Hx, Hy by lia.
  injection Hx as <-. injection Hy as <-.
  pose proof (Qn_le i j Hij) as Hq.
  pose proof (Qn_inv_nonneg (n - 1)) as Hinv.
  unfold Qcdiv.
  revert Hq Hinv. generalize (Qn i) (Qn j) (/ Qn (n - 1)). intros qi qj r Hq Hinv.
  split; intros Hab; qc2q.
  - assert (0 <= (a - b) * r)%Q as H1 by (apply Qmult_le_0_compat; lra).
    assert (0 <= (qj - qi) * ((a - b) * r))%Q as H2
      by (apply Qmult_le_0_compat; lra).
    lra.
  - assert (0 <= (b - a) * r)%Q as H1 by (apply Qmult_le_0_compat; lra).
    assert (0 <= (qj - qi) * ((b - a) * r))%Q as H2
      by (apply Qmult_le_0_compat; lra).
    lra.
Qed.

(** C4, as the code has it.  For finite [historicalGrowth] and
    [TerminalGrowthRate] and one year or more, the growth rates
    [np.linspace(historical_growth, terminal_growth, projection_years)] are
    [N] finite values, evenly spaced from [historicalGrowth], monotonic
    between the two rates.  The first is [historicalGrowth]; the last is
    [TerminalGrowthRate] when there are two years or more, and with a single
    year the one value is [historicalGrowth]. *)
Theorem growth_rates_glide_path (hg tg : Qc) (n : nat) :
  (1 ≤ n)%nat →
  ∃ gs : list Qc,
    np.linspace (Fin hg) (Fin tg) n = Fin <$> gs
    ∧ length gs = n
    ∧ head gs = Some hg
    ∧ ((2 ≤ n)%nat → last gs = Some tg)
    ∧ (n = 1%nat → gs = [hg])
    ∧ (∀ k, (k < n)%nat →
         gs !! k = Some (hg + Qn k * ((tg - hg) / Qn (n - 1))))
    ∧ (∀ i j x y, (i ≤ j)%nat → gs !! i = Some x → gs !! j = Some y →
         (tg ≤ hg → y ≤ x) ∧ (hg ≤ tg → x ≤ y)).
Proof.
  intros Hn. exists (evenly_spaced hg tg n).
  split; [apply linspace_fin|].
  split; [apply evenly_spaced_length|].
  split.
  { rewrite head_lookup, evenly_spaced_lookup by lia. f_equal.
    rewrite Qn_0. ring. }
  split.
  { intros H2. rewrite last_lookup, evenly_spaced_length.
    replace (pred n) with (n - 1)%nat by lia. by apply evenly_spaced_last. }
  split.
  { intros ->. unfold evenly_spaced. cbn. f_equal. rewrite Qn_0. ring. }
  split.
  { intros k Hk. by apply evenly_spaced_lookup. }
  intros i j x y. apply evenly_spaced_monotone.
Qed.

(** C4 fails for a single year: the one growth rate is the historical one,
    so the last entry is not the terminal rate. *)
Lemma growth_rates_single_year_misses_terminal :
  let historical := Q2Qc (1 # 10) in
  let terminal := Q2Qc (1 # 50) in
  let growth_rates := np.linspace (Fin historical) (Fin terminal) 1 in
  length growth_rates = 1%nat
  ∧ last growth_rates = Some (Fin historical)
  ∧ last growth_rates ≠ Some (Fin terminal).
Proof.
  cbv zeta. rewrite linspace_one. split; [done|split; [done|]].
  intros E. injection E as E. discriminate.
Qed.

(** ** Projected revenue *)

Lemma foldl_fmul_fin c l :
  foldl fmul (Fin c) (Fin <$> l) = Fin (c * prod_q l).
Proof.
  revert c. induction l as [|x l IH]; intros c;
    cbn [foldl fmap list_fmap prod_q foldr fmul].
  - apply (f_equal Fin). ring.
  - rewrite IH. apply (f_equal Fin). fold (prod_q l). ring.
Qed.

Lemma np_prod_fin l : np.prod (Fin <$> l) = Fin (prod_q l).
Proof. unfold np.prod. rewrite foldl_fmul_fin. apply (f_equal Fin). ring. Qed.

(** On finite values the code's revenue column is the specification's
    cumulative product. *)
Lemma projected_revenue_fin base gs n :
  projected_revenue (Fin base) (Fin <$> gs) n = Fin <$> revenue_path base gs n.
Proof.
  unfold projected_revenue, revenue_path. rewrite <- list_fmap_compose.
  apply list_fmap_ext. intros _ i _. unfold compose.
  rewrite <- fmap_take, <- list_fmap_compose.
  change ((λ g, (Fin 1 + g)%F) ∘ Fin) with (Fin ∘ (λ g : Qc, 1 + g)).
  rewrite list_fmap_compose, np_prod_fin. done.
Qed.

Lemma revenue_path_cons base g gs n :
  revenue_path base (g :: gs) (S n)
  = base * (1 + g) :: revenue_path (base * (1 + g)) gs n.
Proof.
  unfold revenue_path. cbn [seq fmap list_fmap]. f_equal.
  - cbn [firstn fmap list_fmap prod_q foldr]. rewrite take_0. cbn [fmap list_fmap foldr]. ring.
  - rewrite <- fmap_S_seq, <- list_fmap_compose.
    apply list_fmap_ext. intros _ i _. unfold compose.
    cbn [firstn fmap list_fmap prod_q foldr].
    fold (prod_q ((λ g, 1 + g) <$> take i gs)). ring.
Qed.

Lemma revenue_path_length base gs n : length (revenue_path base gs n) = n.
Proof. unfold revenue_path. by rewrite length_fmap, length_seq. Qed.

Lemma revenue_path_lookup base gs n i :
  (i < n)%nat →
  revenue_path base gs n !! i
  = Some (base * prod_q ((λ g, 1 + g) <$> take (S i) gs)).
Proof.
  intros H. unfold revenue_path. by rewrite list_lookup_fmap, lookup_seq_lt.
Qed.

Lemma revenue_grows_only_if (base g : Qc) : 0 < base → base < base * (1 + g) → 0 < g.
Proof. intros Hb H. qc2q. nra. Qed.

Lemma revenue_does_not_fall (base g : Qc) : 0 < base → 0 ≤ g → base ≤ base * (1 + g).
Proof. intros Hb Hg. qc2q. nra. Qed.

Lemma revenue_stays_positive (base g : Qc) : 0 < base → 0 ≤ g → 0 < base * (1 + g).
Proof. intros Hb Hg. qc2q. nra. Qed.

Lemma Qc_lt_le (a b : Qc) : a < b → a ≤ b.
Proof. intros H. qc2q. lra. Qed.

(** Growth from the last historical year on, through every projected
    year, needs every rate positive. *)
Lemma increasing_revenue_path_rates base gs :
  0 < base →
  increasing (Fin base :: (Fin <$> revenue_path base gs (length gs))) →
  Forall (λ g, 0 < g) gs.
Proof.
  revert base. induction gs as [|g gs IH]; intros base Hb; [constructor|].
  cbn [length]. rewrite revenue_path_cons. cbn [fmap list_fmap].
  change (increasing (Fin base :: Fin (base * (1 + g)) :: ?l))
    with (base < base * (1 + g) ∧ increasing (Fin (base * (1 + g)) :: l)).
  intros [Hg Hinc]. apply revenue_grows_only_if in Hg; [|done].
  constructor; [done|].
  apply (IH (base * (1 + g))); [|done].
  by apply revenue_stays_positive, Qc_lt_le.
Qed.

(** With no negative rate the revenue never falls, from the last
    historical year on. *)
Lemma never_decreasing_revenue_path base gs :
  0 < base →
  Forall (λ g, 0 ≤ g) gs →
  never_decreasing (Fin base :: (Fin <$> revenue_path base gs (length gs))).
Proof.
  revert base. induction gs as [|g gs IH]; intros base Hb Hall; [done|].
  apply Forall_cons in Hall as [Hg Hall].
  cbn [length]. rewrite revenue_path_cons. cbn [fmap list_fmap].
  change (never_decreasing (Fin base :: Fin (base * (1 + g)) :: ?l))
    with (base ≤ base * (1 + g) ∧ never_decreasing (Fin (base * (1 + g)) :: l)).
  split; [by apply revenue_does_not_fall|].
  apply (IH (base * (1 + g))); [by apply revenue_stays_positive|done].
Qed.

(** C7.  For a positive last historical revenue and any finite growth
    rates, the projected revenue of year 1 is
    [lastHistoricalRevenue * (1 + growthRates[1])].  Take the sequence that
    starts at the last historical revenue and goes on with the projected
    years: if it grows from every entry to the next, every growth rate is
    positive; and if no growth rate is negative, it never falls. *)
Theorem projected_revenue_year_over_year (base : Qc) (gs : list Qc) :
  0 < base →
  let revenue := projected_revenue (Fin base) (Fin <$> gs) (length gs) in
  (∀ g1, head gs = Some g1 → head revenue = Some (Fin base * (Fin 1 + Fin g1))%F)
  ∧ (increasing (Fin base :: revenue) → Forall (λ g, 0 < g) gs)
  ∧ (Forall (λ g, 0 ≤ g) gs → never_decreasing (Fin base :: revenue)).
Proof.
  intros Hb revenue. subst revenue. rewrite projected_revenue_fin.
  split; [|split].
  - intros g1 Hhead. destruct gs as [|g gs]; [done|]. injection Hhead as ->.
    cbn [length]. by rewrite revenue_path_cons.
  - by apply increasing_revenue_path_rates.
  - by apply never_decreasing_revenue_path.
Qed.

(** C7, the projected years alone.  From a last historical revenue of 64,
    the rates -0.5 and 0.25 project the revenues 32 and 40: the projected
    sequence grows from year 1 to year 2 although the first rate is
    negative. *)
Lemma projected_revenue_grows_after_a_fall :
  let gs := [Q2Qc (-1 # 2); Q2Qc (1 # 4)] in
  let revenue := projected_revenue (Fz 64) (Fin <$> gs) (length gs) in
  revenue = [Fz 32; Fz 40]
  ∧ increasing revenue
  ∧ ¬ Forall (λ g, 0 < g) gs.
Proof.
  cbv zeta. split; [|split].
  - unfold Fz. rewrite projected_revenue_fin.
    unfold revenue_path. cbn [length seq fmap list_fmap].
    repeat apply (f_equal2 cons); try reflexivity;
      apply (f_equal Fin), Qc_is_canon; vm_compute; reflexivity.
  - unfold Fz. rewrite projected_revenue_fin.
    unfold revenue_path. cbn [length seq fmap list_fmap increasing].
    split; [|done]. vm_compute. reflexivity.
  - intros Hall. apply Forall_cons in Hall as [Hneg _]. vm_compute in Hneg. discriminate.
Qed.

(** ** Means, growth and margins of finite columns *)

Section FiniteColumns.

Implicit Types (l rest revenue ebit : list Qc) (s : list float64).

Lemma foldl_fadd_fin c l :
  foldl fadd (Fin c) (Fin <$> l) = Fin (c + sum_q l).
Proof.
  revert c. induction l as [|x l IH]; intros c;
    cbn [foldl fmap list_fmap sum_q foldr fadd].
  - apply (f_equal Fin). ring.
  - rewrite IH. apply (f_equal Fin). fold (sum_q l). ring.
Qed.

Lemma filter_not_nan_fin l :
  filter (λ x, isnan x = false) (Fin <$> l) = Fin <$> l.
Proof.
  induction l as [|x l IH]; [done|].
  cbn [fmap list_fmap]. rewrite filter_cons_True by done. by rewrite IH.
Qed.

Lemma nan_to_zero_fin l :
  (λ x, if isnan x then Fin 0 else x) <$> (Fin <$> l) = Fin <$> l.
Proof. rewrite <- list_fmap_compose. by apply list_fmap_ext. Qed.

Lemma pd_mean_fin l : l ≠ [] → pd.mean (Fin <$> l) = Fin (mean_q l).
Proof.
  intros Hl. unfold pd.mean.
  rewrite filter_not_nan_fin, nan_to_zero_fin, length_fmap, foldl_fadd_fin.
  assert (0 < length l)%nat by (destruct l; [done|cbn; lia]).
  rewrite decide_True by done.
  unfold Fz. fold (Qn (length l)). rewrite fdiv_fin by by apply Qn_nonzero.
  apply (f_equal Fin). unfold mean_q. fold (Qn (length l)).
  rewrite Qcplus_0_l. done.
Qed.

(** A missing value is left out of the mean. *)
Lemma pd_mean_skips_nan s : pd.mean (NaN :: s) = pd.mean s.
Proof.
  unfold pd.mean. cbn [fmap list_fmap isnan foldl].
  rewrite filter_cons_False by done.
  replace (Fin 0 + Fin 0)%F with (Fin 0); [done|].
  cbn. by rewrite Qcplus_0_l.
Qed.

Lemma pd_mean_all_nan : pd.mean [NaN] = NaN.
Proof. done. Qed.

Lemma ffill_from_fin prev l : pd.ffill_from prev (Fin <$> l) = Fin <$> l.
Proof.
  revert prev. induction l as [|x l IH]; intros prev; [done|].
  cbn. by rewrite IH.
Qed.

Lemma fmap_removelast {A B} (f : A → B) (k : list A) :
  removelast (f <$> k) = f <$> removelast k.
Proof.
  induction k as [|x [|y k] IH]; [done..|].
  change (f <$> removelast (x :: y :: k)) with (f x :: (f <$> removelast (y :: k))).
  rewrite <- IH. done.
Qed.

Lemma growth_ratios_fin r0 rest :
  Forall (λ r, r ≠ 0) (r0 :: rest) →
  (λ r, r - Fin 1)%F <$> zip_with fdiv (Fin <$> rest) (Fin <$> removelast (r0 :: rest))
  = Fin <$> growth_observations (r0 :: rest).
Proof.
  revert r0. induction rest as [|r1 rest IH]; intros r0 Hnz; [done|].
  apply Forall_cons in Hnz as [Hr0 Hnz].
  change (removelast (r0 :: r1 :: rest)) with (r0 :: removelast (r1 :: rest)).
  cbn [fmap list_fmap zip_with growth_observations].
  rewrite (IH r1 Hnz), fdiv_fin by done. done.
Qed.

Lemma pct_change_fin r0 rest :
  Forall (λ r, r ≠ 0) (r0 :: rest) →
  pd.pct_change (Fin <$> (r0 :: rest))
  = NaN :: (Fin <$> growth_observations (r0 :: rest)).
Proof.
  intros Hnz. unfold pd.pct_change, pd.ffill. rewrite ffill_from_fin.
  rewrite <- (growth_ratios_fin r0 rest Hnz), <- fmap_removelast.
  done.
Qed.

Lemma growth_observations_length l :
  length (growth_observations l) = pred (length l).
Proof.
  induction l as [|r0 [|r1 l] IH]; [done..|].
  cbn [growth_observations length] in *. by rewrite IH.
Qed.

(** The historical growth of a table with two records or more and no zero
    revenue is the mean of the period-over-period growth rates. *)
Lemma historical_growth_fin revenue :
  (2 ≤ length revenue)%nat →
  Forall (λ r, r ≠ 0) revenue →
  historical_growth_of (Fin <$> revenue)
  = Fin (mean_q (growth_observations revenue)).
Proof.
  intros Hlen Hnz. destruct revenue as [|r0 rest]; [cbn in Hlen; lia|].
  unfold historical_growth_of. rewrite pct_change_fin, pd_mean_skips_nan by done.
  apply pd_mean_fin. intros E. apply (f_equal length) in E.
  rewrite growth_observations_length in E. cbn in *. lia.
Qed.

Lemma margins_fin ebit revenue :
  Forall (λ r, r ≠ 0) revenue →
  zip_with fdiv (Fin <$> ebit) (Fin <$> revenue) = Fin <$> margins ebit revenue.
Proof.
  revert ebit. induction revenue as [|r revenue IH]; intros [|e ebit] Hnz; try done.
  apply Forall_cons in Hnz as [Hr Hnz].
  cbn [fmap list_fmap zip_with margins]. rewrite fdiv_fin by done.
  f_equal. by apply IH.
Qed.

Lemma avg_margin_fin ebit revenue :
  length ebit = length revenue →
  revenue ≠ [] →
  Forall (λ r, r ≠ 0) revenue →
  avg_margin_of (Fin <$> ebit) (Fin <$> revenue) = Fin (mean_q (margins ebit revenue)).
Proof.
  intros Hlen Hne Hnz. unfold avg_margin_of. rewrite margins_fin by done.
  apply pd_mean_fin. destruct ebit, revenue; done.
Qed.

End FiniteColumns.

(** ** Projection *)

Lemma projected_revenue_length base growth_rates n :
  length (projected_revenue base growth_rates n) = n.
Proof. unfold projected_revenue. by rewrite length_fmap, length_seq. Qed.

Lemma iloc_last_ok s x : last s = Some x → pd.iloc_last s = Ok x.
Proof. unfold pd.iloc_last. by intros ->. Qed.

Lemma lift_ok {A} (r : result A) w a : r = Ok a → lift r w = (Ok a, w).
Proof. by intros ->. Qed.

Lemma lift_raise {A} (r : result A) w e : r = Raise e → lift r w = (Raise e, w).
Proof. by intros ->. Qed.

Lemma modify_self_ok f o out :
  modify_self f (mkWorld o out) = (Ok (), mkWorld (f o) out).
Proof. done. Qed.

(** The projection of a table with at least one record: every statement
    of the body completes, whatever the values are. *)
Lemma project_financials_completes o out df revenue ebit base g n :
  statements o = Some df →
  pd.columns df !! "Revenue" = Some revenue →
  pd.columns df !! "EBIT" = Some ebit →
  last revenue = Some base →
  terminal_growth o = Some g →
  projection_years o = Some n →
  let growth_rates := np.linspace (historical_growth_of revenue) g n in
  let p_revenue := projected_revenue base growth_rates n in
  let p_ebit := (λ v, v * avg_margin_of ebit revenue)%F <$> p_revenue in
  let p_fcf := (λ v, v * (Fin 1 - tax_rate))%F <$> p_ebit in
  project_financials (mkWorld o out)
  = (Ok PyNone,
     mkWorld
       (set_projections
          (Some (pd.mkDataFrame n
                   (<["FCF" := p_fcf]> (<["EBIT" := p_ebit]> (<["Revenue" := p_revenue]> ∅)))))
          o)
       out).
Proof.
  intros Hst Hrev Hebit Hlast Hg Hn growth_rates p_revenue p_ebit p_fcf.
  apply then_return_fall_through, try_except_ok.
  do 2 step.
  erewrite bind_ok by apply modify_self_ok.
  do 2 step.
  erewrite bind_ok by (apply lift_ok, iloc_last_ok, Hlast).
  step.
  erewrite bind_ok.
  2:{ apply lift_ok. unfold pd.setitem_list.
      rewrite decide_True by (cbn; apply projected_revenue_length). reflexivity. }
  erewrite bind_ok by apply modify_self_ok.
  rewrite set_projections_twice.
  do 6 step.
  reflexivity.
Qed.

(** C3.  For a table of two records or more with no zero revenue, the
    projection stores, for every year [i] in [1..N],
    Revenue[i] = lastHistoricalRevenue * product of (1 + growthRates[k])
    for k in [1..i], EBIT[i] = Revenue[i] * avgMargin with [avgMargin] the
    mean of EBIT/Revenue over the historical records, and
    FCF[i] = EBIT[i] * (1 - 0.21); [growthRates] are the evenly spaced rates
    that start at the mean period-over-period revenue growth. *)
Theorem project_financials_formulas o out df (revenue ebit : list Qc) last_revenue
    (g : Qc) n :
  statements o = Some df →
  pd.columns df !! "Revenue" = Some (Fin <$> revenue) →
  pd.columns df !! "EBIT" = Some (Fin <$> ebit) →
  length ebit = length revenue →
  (2 ≤ length revenue)%nat →
  Forall (λ r, r ≠ 0) revenue →
  last revenue = Some last_revenue →
  terminal_growth o = Some (Fin g) →
  projection_years o = Some n →
  let growth_rates := evenly_spaced (mean_q (growth_observations revenue)) g n in
  let avg_margin := mean_q (margins ebit revenue) in
  ∃ p_revenue p_ebit p_fcf : list Qc,
    project_financials (mkWorld o out)
    = (Ok PyNone,
       mkWorld
         (set_projections
            (Some (pd.mkDataFrame n
                     (<["FCF" := Fin <$> p_fcf]> (<["EBIT" := Fin <$> p_ebit]>
                        (<["Revenue" := Fin <$> p_revenue]> ∅)))))
            o)
         out)
    ∧ np.linspace (historical_growth_of (Fin <$> revenue)) (Fin g) n
      = Fin <$> growth_rates
    ∧ ∀ i, (1 ≤ i ≤ n)%nat →
        ∃ r e f,
          p_revenue !! (i - 1)%nat = Some r
          ∧ p_ebit !! (i - 1)%nat = Some e
          ∧ p_fcf !! (i - 1)%nat = Some f
          ∧ r = last_revenue * prod_q ((λ k, 1 + k) <$> take i growth_rates)
          ∧ e = r * avg_margin
          ∧ f = e * (1 - Q2Qc (21 # 100)).
Proof.
  intros Hst Hrev Hebit Hlen H2 Hnz Hlast Hg Hn growth_rates avg_margin.
  set (p_revenue := revenue_path last_revenue growth_rates n).
  set (p_ebit := (λ r, r * avg_margin) <$> p_revenue).
  set (p_fcf := (λ e, e * (1 - Q2Qc (21 # 100))) <$> p_ebit).
  assert (revenue ≠ []) as Hne by (intros ->; cbn in H2; lia).
  assert (np.linspace (historical_growth_of (Fin <$> revenue)) (Fin g) n
          = Fin <$> growth_rates) as Hrates
    by (rewrite historical_growth_fin by done; apply linspace_fin).
  exists p_revenue, p_ebit, p_fcf. split; [|split; [done|]].
  - erewrite project_financials_completes; try eassumption.
    2:{ rewrite fmap_last, Hlast. done. }
    cbv zeta. rewrite Hrates, projected_revenue_fin, avg_margin_fin by done.
    fold avg_margin p_revenue.
    unfold p_fcf, p_ebit. rewrite <- !list_fmap_compose. done.
  - intros i Hi.
    assert (p_revenue !! (i - 1)%nat
            = Some (last_revenue * prod_q ((λ k, 1 + k) <$> take i growth_rates)))
      as Hr.
    { unfold p_revenue. rewrite revenue_path_lookup by lia.
      by replace (S (i - 1)) with i by lia. }
    eexists _, _, _. split; [exact Hr|].
    unfold p_fcf, p_ebit. rewrite !list_lookup_fmap, Hr. cbn. done.
Qed.

(** ** Projection from too little data *)

Lemma fadd_nan_r x : (x + NaN)%F = NaN.
Proof. by destruct x. Qed.

Lemma fsub_nan_r x : (x - NaN)%F = NaN.
Proof. by destruct x. Qed.

Lemma fmul_nan_r x : (x * NaN)%F = NaN.
Proof. by destruct x. Qed.

Lemma fdiv_nan_r x : (x / NaN)%F = NaN.
Proof. by destruct x. Qed.

Lemma foldl_fmul_nan s : foldl fmul NaN s = NaN.
Proof. by induction s. Qed.

(** One record gives no growth observation: the historical growth is
    [nan]. *)
Lemma historical_growth_one_record r : historical_growth_of [r] = NaN.
Proof.
  unfold historical_growth_of, pd.pct_change, pd.ffill. cbn [pd.ffill_from].
  assert ((if isnan r then NaN else r) = r) as -> by by destruct r.
  cbn [pd.shift removelast zip_with fmap list_fmap].
  by rewrite fdiv_nan_r.
Qed.

Lemma arange_lookup n k : (k < n)%nat → np.arange n !! k = Some (Fz (Z.of_nat k)).
Proof.
  intros H. unfold np.arange. by rewrite list_lookup_fmap, lookup_seq_lt.
Qed.

Lemma arange_length n : length (np.arange n) = n.
Proof. unfold np.arange. by rewrite length_fmap, length_seq. Qed.

(** A glide path that starts from [nan] starts with [nan]. *)
Lemma linspace_nan_head g n :
  (1 ≤ n)%nat → np.linspace NaN g n !! 0%nat = Some NaN.
Proof.
  intros Hn. unfold np.linspace. rewrite fsub_nan_r.
  assert (∀ y : list float64, (0 < length y)%nat →
            ((λ v, v + NaN)%F <$> y) !! 0%nat = Some NaN) as Hhead.
  { intros [|v y] Hy; [cbn in Hy; lia|]. cbn. by rewrite fadd_nan_r. }
  destruct (decide (1 < n)%nat).
  - unfold np.set_last. rewrite list_lookup_insert_ne.
    + apply Hhead. repeat case_match; rewrite length_fmap, arange_length; lia.
    + rewrite length_fmap.
      repeat case_match; rewrite length_fmap, arange_length; lia.
  - apply Hhead. repeat case_match; rewrite length_fmap, arange_length; lia.
Qed.

Lemma projected_revenue_nan base growth_rates n :
  growth_rates !! 0%nat = Some NaN →
  projected_revenue base growth_rates n = replicate n NaN.
Proof.
  intros Hhead. destruct growth_rates as [|g0 rates]; [done|].
  injection Hhead as ->.
  unfold projected_revenue.
  apply list_eq. intros i. rewrite list_lookup_fmap.
  destruct (decide (i < n)%nat) as [Hi|Hi].
  - rewrite lookup_seq_lt, lookup_replicate_2 by done. cbn [fmap option_fmap option_map].
    f_equal. cbn [plus firstn fmap list_fmap]. unfold np.prod. cbn [foldl].
    rewrite fmul_nan_r, foldl_fmul_nan. apply fmul_nan_r.
  - rewrite lookup_ge_None_2 by (rewrite length_seq; lia).
    rewrite lookup_ge_None_2 by (rewrite length_replicate; lia). done.
Qed.

Lemma fmap_replicate_nan (f : float64 → float64) n :
  f NaN = NaN → f <$> replicate n NaN = replicate n NaN.
Proof. intros H. rewrite fmap_replicate. by rewrite H. Qed.

(** C6, as the code has it.  [project_financials] reports a failure when
    the table has no record.  With one record or more, a zero revenue
    included, it reports none and stores the projection, returning [None]
    as it does after a failure; with exactly one record every projected
    Revenue, EBIT and FCF is [nan]. *)
Theorem project_financials_reports_only_empty_table o out df revenue ebit g n :
  statements o = Some df →
  pd.columns df !! "Revenue" = Some revenue →
  pd.columns df !! "EBIT" = Some ebit →
  terminal_growth o = Some g →
  projection_years o = Some n →
  (revenue = [] →
     project_financials (mkWorld o out)
     = (Ok PyNone,
        mkWorld (set_projections (Some (pd.mkDataFrame n ∅)) o)
          (out ++ ["Error projecting financials: single positional indexer is out-of-bounds"])))
  ∧ (revenue ≠ [] →
     ∃ p_revenue p_ebit p_fcf,
       project_financials (mkWorld o out)
       = (Ok PyNone,
          mkWorld
            (set_projections
               (Some (pd.mkDataFrame n
                        (<["FCF" := p_fcf]> (<["EBIT" := p_ebit]>
                           (<["Revenue" := p_revenue]> ∅)))))
               o)
            out)
       ∧ (length revenue = 1%nat →
          p_revenue = replicate n NaN
          ∧ p_ebit = replicate n NaN
          ∧ p_fcf = replicate n NaN)).
Proof.
  intros Hst Hrev Hebit Hg Hn. split.
  - intros ->.
    apply then_return_returned. erewrite try_except_raise.
    2:{ do 2 step. erewrite bind_ok by apply modify_self_ok.
        do 2 step. apply bind_raise. by apply lift_raise. }
    reflexivity.
  - intros Hne.
    destruct (last revenue) as [base|] eqn:Hlast;
      [|by apply last_None in Hlast].
    eexists _, _, _. split.
    { eapply project_financials_completes; eassumption. }
    intros Hone. destruct revenue as [|r [|? ?]]; try done.
    destruct (decide (1 ≤ n)%nat) as [H1|H1].
    + rewrite historical_growth_one_record.
      rewrite (projected_revenue_nan _ _ _ (linspace_nan_head g n H1)).
      rewrite !fmap_replicate_nan by done. done.
    + assert (n = 0)%nat as -> by lia. done.
Qed.

(** C6 fails on a table of one record and on a table with a zero revenue:
    the projection reports nothing and stores columns of [nan]. *)
Lemma project_financials_no_failure_reported :
  let run_on revenue ebit :=
    run project_financials
      (mkDCFAnalysis
         (Some (pd.mkDataFrame (length revenue)
                  (<["EBIT" := ebit]> (<["Revenue" := revenue]> ∅))))
         None (Some (Fin (Q2Qc (1 # 10)))) (Some (Fin (Q2Qc (1 # 50)))) (Some 2%nat)) in
  let stored w := p ← projections (self w); pd.columns p !! "FCF" in
  (fst (run_on [Fz 100] [Fz 20]) = Ok PyNone
   ∧ stdout (snd (run_on [Fz 100] [Fz 20])) = []
   ∧ stored (snd (run_on [Fz 100] [Fz 20])) = Some [NaN; NaN])
  ∧ (fst (run_on [Fz 0; Fz 110] [Fz 0; Fz 20]) = Ok PyNone
     ∧ stdout (snd (run_on [Fz 0; Fz 110] [Fz 0; Fz 20])) = []
     ∧ stored (snd (run_on [Fz 0; Fz 110] [Fz 0; Fz 20])) = Some [NaN; NaN]).
Proof. vm_compute. done. Qed.

(** ** Valuation *)

Lemma bind_inv_ok {A B} (m : M A) (k : A → M B) w b w' :
  bind m k w = (Ok b, w') → ∃ a w1, m w = (Ok a, w1) ∧ k a w1 = (Ok b, w').
Proof.
  unfold bind. destruct (m w) as [[a|e] w1]; [|done]. intros H. by exists a, w1.
Qed.

(** A method that hands back a dictionary ran a [return] of its [try]
    body. *)
Lemma returned_dict_inv body msg w d w' :
  then_return
    (try_except body (λ e, print (msg +:+ str e);; returned PyNone)) PyNone w
  = (Ok (PyDict d), w') →
  body w = (Ok (Some (PyDict d)), w').
Proof.
  unfold then_return, try_except, bind, print, returned, ret.
  destruct (body w) as [[[v|]|e] w1]; cbn; intros ?; by simplify_eq.
Qed.

Lemma attr_inv {A} (field : DCFAnalysis → option A) what w v w' :
  attr field what w = (Ok v, w') → field (self w) = Some v ∧ w' = w.
Proof.
  unfold attr, bind, get_self, ret, raise. destruct (field (self w)); [|done].
  by intros [= -> ->].
Qed.

Lemma lift_inv {A} (r : result A) w a w' : lift r w = (Ok a, w') → r = Ok a ∧ w' = w.
Proof. unfold lift. by intros [= -> ->]. Qed.

Lemma projections_col_inv col w s w' :
  projections_col col w = (Ok s, w') →
  ∃ df, projections (self w) = Some df ∧ pd.columns df !! col = Some s ∧ w' = w.
Proof.
  unfold projections_col. intros (df & w1 & [Hdf ->]%attr_inv & [Hcol ->]%lift_inv)%bind_inv_ok.
  exists df. split; [done|split; [|done]].
  unfold pd.getitem in Hcol. by destruct (pd.columns df !! col); simplify_eq.
Qed.

(** The sum of the discounted columns only reads the object. *)
Lemma py_sum_discounted_world years acc w v w' :
  py_sum discounted years acc w = (Ok v, w') → w' = w.
Proof.
  revert acc w. induction years as [|year years IH]; intros acc w; cbn [py_sum].
  - unfold ret. by intros [= _ ->].
  - intros (item & w1 & Hitem & (acc' & w2 & [_ ->]%lift_inv & Hrest)%bind_inv_ok)%bind_inv_ok.
    apply IH in Hrest as ->.
    unfold discounted in Hitem.
    apply bind_inv_ok in Hitem as (fcf & w3 & (df & _ & _ & ->)%projections_col_inv & Hitem).
    apply bind_inv_ok in Hitem as (x & w4 & [_ ->]%attr_inv & Hitem).
    unfold ret in Hitem. by injection Hitem as _ ->.
Qed.

(** What [float] makes of a sum and of that sum plus a float. *)
Lemma py_float_of_sum a p t x y :
  py_add a (PyFloat p) = Ok t → py_float a = Ok x → py_float t = Ok y →
  y = (x + p)%F.
Proof.
  destruct a as [| | x' | [|x' [|? ?]] | | |]; cbn; intros; simplify_eq; cbn in *;
    by simplify_eq.
Qed.

Section Valuation.

Variables (o : DCFAnalysis) (out : list string) (df : pd.DataFrame).
Variables (fcf : list float64) (w g : float64).
Hypothesis Hprojections : projections o = Some df.
Hypothesis Hfcf : pd.columns df !! "FCF" = Some fcf.
Hypothesis Hwacc : wacc o = Some w.
Hypothesis Hterminal : terminal_growth o = Some g.

Lemma discounted_ok year :
  discounted year (mkWorld o out)
  = (Ok (PySeries ((λ v, v / (Fin 1 + w) ** year)%F <$> fcf)), mkWorld o out).
Proof. unfold discounted. do 2 step. reflexivity. Qed.

(** Once the running sum is a series it stays one, of the length of the
    FCF column. *)
Lemma py_sum_series years acc :
  length acc = length fcf →
  ∃ s, py_sum discounted years (PySeries acc) (mkWorld o out)
       = (Ok (PySeries s), mkWorld o out)
       ∧ length s = length fcf.
Proof.
  revert acc. induction years as [|year years IH]; intros acc Hlen.
  - by exists acc.
  - cbn [py_sum]. erewrite bind_ok by apply discounted_ok.
    erewrite bind_ok by (apply lift_ok; reflexivity).
    apply IH. rewrite length_zip_with, length_fmap. lia.
Qed.

Lemma py_sum_from_zero year years :
  ∃ s, py_sum discounted (year :: years) (PyFloat (Fin 0)) (mkWorld o out)
       = (Ok (PySeries s), mkWorld o out)
       ∧ length s = length fcf.
Proof.
  cbn [py_sum]. erewrite bind_ok by apply discounted_ok.
  erewrite bind_ok by (apply lift_ok; reflexivity).
  apply py_sum_series. by rewrite !length_fmap.
Qed.

(** The valuation of a projection of two years or more: the present value
    of the cash flows is a series of as many entries, which [float]
    refuses; the method prints the error and returns [None]. *)
Lemma calculate_dcf_value_fails_beyond_one_year n :
  projection_years o = Some n →
  length fcf = n →
  (2 ≤ n)%nat →
  calculate_dcf_value (mkWorld o out)
  = (Ok PyNone,
     mkWorld o
       (out ++ ["Error calculating DCF value: cannot convert the series to <class 'float'>"])).
Proof.
  intros Hn Hlen H2.
  destruct n as [|n]; [lia|].
  destruct (py_sum_from_zero 1 (seq 2 n)) as (s & Hsum & Hs).
  destruct (last fcf) as [last_fcf|] eqn:Hlast;
    [|apply last_None in Hlast; subst fcf; cbn in Hlen; lia].
  apply then_return_returned. erewrite try_except_raise.
  2:{ step. cbn [seq]. erewrite bind_ok by exact Hsum.
      step. erewrite bind_ok by (apply lift_ok, iloc_last_ok, Hlast).
      do 2 step.
      erewrite bind_ok by (apply lift_ok; reflexivity).
      apply bind_raise, lift_raise.
      destruct s as [|? [|? ?]]; cbn in Hs; [lia..|reflexivity]. }
  reflexivity.
Qed.

End Valuation.

(** The valuation of a single projected year, in the arithmetic of the
    code. *)
Lemma calculate_dcf_value_one_year o out df x w g :
  projections o = Some df →
  pd.columns df !! "FCF" = Some [x] →
  wacc o = Some w →
  terminal_growth o = Some g →
  projection_years o = Some 1%nat →
  let pv_fcf := (x / (Fin 1 + w) ** 1)%F in
  let terminal_value := (x * (Fin 1 + g) / (w - g))%F in
  let pv_terminal := (terminal_value / (Fin 1 + w) ** 1)%F in
  calculate_dcf_value (mkWorld o out)
  = (Ok (PyDict [("PV of FCF", pv_fcf);
                 ("Terminal Value", terminal_value);
                 ("PV of Terminal Value", pv_terminal);
                 ("Total Value", pv_fcf + pv_terminal)%F]),
     mkWorld o out).
Proof.
  intros Hp Hfcf Hw Hg Hn. cbv zeta.
  apply then_return_returned, try_except_ok.
  assert (py_sum discounted (seq 1 1) (PyFloat (Fin 0)) (mkWorld o out)
          = (Ok (PySeries [Fin 0 + x / (Fin 1 + w) ** 1]%F), mkWorld o out)) as Hsum.
  { cbn [seq py_sum]. erewrite bind_ok by by eapply discounted_ok.
    erewrite bind_ok by (apply lift_ok; reflexivity). reflexivity. }
  step. erewrite bind_ok by exact Hsum.
  step. erewrite bind_ok by (apply lift_ok; reflexivity).
  do 2 step.
  do 5 (erewrite bind_ok by (apply lift_ok; reflexivity)).
  cbn [fmap list_fmap]. rewrite fadd_0_l. reflexivity.
Qed.

(** ** Valuation with a zero denominator *)

Lemma fsub_diag r : (Fin r - Fin r)%F = Fin 0.
Proof. cbn. by rewrite Qcplus_opp_r. Qed.

Lemma fdiv_zero_not_finite a : ¬ is_finite (Fin a / Fin 0).
Proof.
  unfold fdiv. rewrite decide_True by done.
  destruct (sign a) as [[|]|]; cbn; tauto.
Qed.

Lemma fdiv_not_finite x b : ¬ is_finite x → ¬ is_finite (x / Fin b).
Proof. destruct x; cbn; try tauto; case_decide; cbn; tauto. Qed.

Lemma fadd_not_finite x y : ¬ is_finite y → ¬ is_finite (x + y).
Proof. destruct x, y; cbn; tauto. Qed.

Lemma fpow_fin a n : (Fin a ** n)%F = Fin (a ^ n).
Proof. induction n as [|n IH]; [done|]. cbn [fpow]. by rewrite IH. Qed.

(** C5, as the code has it.  With [WACC] equal to [TerminalGrowthRate] the
    division is made all the same and no failure is reported: for a single
    projected year with a finite cash flow the method returns its
    dictionary, in which Terminal Value, PV of Terminal Value and Total
    Value are infinite or [nan]. *)
Theorem dcf_value_equal_rates_not_guarded o out df (x r : Qc) :
  projections o = Some df →
  pd.columns df !! "FCF" = Some [Fin x] →
  wacc o = Some (Fin r) →
  terminal_growth o = Some (Fin r) →
  projection_years o = Some 1%nat →
  ∃ pv_fcf terminal_value pv_terminal total_value,
    calculate_dcf_value (mkWorld o out)
    = (Ok (PyDict [("PV of FCF", pv_fcf);
                   ("Terminal Value", terminal_value);
                   ("PV of Terminal Value", pv_terminal);
                   ("Total Value", total_value)]),
       mkWorld o out)
    ∧ ¬ is_finite terminal_value
    ∧ ¬ is_finite pv_terminal
    ∧ ¬ is_finite total_value.
Proof.
  intros Hp Hfcf Hw Hg Hn.
  eexists _, _, _, _. split.
  { by eapply calculate_dcf_value_one_year. }
  rewrite fsub_diag.
  assert (¬ is_finite (Fin x * (Fin 1 + Fin r) / Fin 0)) as Htv
    by apply fdiv_zero_not_finite.
  assert (¬ is_finite (Fin x * (Fin 1 + Fin r) / Fin 0 / (Fin 1 + Fin r) ** 1)) as Hpv.
  { change (Fin 1 + Fin r)%F with (Fin (1 + r)) at 2. rewrite fpow_fin.
    by apply fdiv_not_finite. }
  split; [done|split; [done|]]. by apply fadd_not_finite.
Qed.

(** C5 fails: one projected year of 79, with WACC and terminal growth both
    0.05, is valued without any failure, at an infinite terminal value. *)
Lemma dcf_value_equal_rates_returns_infinity :
  let o := mkDCFAnalysis None
             (Some (pd.mkDataFrame 1 (<["FCF" := [Fz 79]]> ∅)))
             (Some (Fin (Q2Qc (5 # 100)))) (Some (Fin (Q2Qc (5 # 100)))) (Some 1%nat) in
  ∃ pv_fcf,
    run calculate_dcf_value o
    = (Ok (PyDict [("PV of FCF", Fin pv_fcf);
                   ("Terminal Value", PInf);
                   ("PV of Terminal Value", PInf);
                   ("Total Value", PInf)]),
       mkWorld o []).
Proof.
  cbv zeta. eexists. unfold run.
  erewrite calculate_dcf_value_one_year; [|reflexivity..].
  rewrite fsub_diag. reflexivity.
Qed.

(** ** Valuation of positive cash flows *)

Lemma Qc_mul_pos (a b : Qc) : 0 < a → 0 < b → 0 < a * b.
Proof. intros Ha Hb. qc2q. nra. Qed.

Lemma Qc_div_pos (a b : Qc) : 0 < a → 0 < b → 0 < a / b.
Proof.
  intros Ha Hb. qc2q. apply Qmult_lt_0_compat; [done|]. by apply Qinv_lt_0_compat.
Qed.

Lemma Qc_pow_pos (a : Qc) n : 0 < a → 0 < a ^ n.
Proof.
  intros Ha. induction n as [|n IH]; [done|]. cbn [Qcpower]. by apply Qc_mul_pos.
Qed.

Lemma Qc_pos_nonzero (a : Qc) : 0 < a → a ≠ 0.
Proof. intros Ha ->. by apply Qclt_not_eq in Ha. Qed.

Lemma Qc_one_plus_pos (a : Qc) : 0 < a → 0 < 1 + a.
Proof. intros Ha. qc2q. lra. Qed.

(** C8.  Over one projected year, the case in which the valuation hands
    its values back, [calculate_dcf_value] returns the four values and
    prints nothing; Total Value is PV of FCF plus PV of Terminal Value;
    and when the cash flow is positive, WACC lies in (0,1) and exceeds the
    terminal growth rate, and the terminal growth rate exceeds -1, each of
    the four values is a positive number. *)
Theorem dcf_value_single_year_total_and_sign o out df (x w g : Qc) :
  projections o = Some df →
  pd.columns df !! "FCF" = Some [Fin x] →
  wacc o = Some (Fin w) →
  terminal_growth o = Some (Fin g) →
  projection_years o = Some 1%nat →
  ∃ pv_fcf terminal_value pv_terminal total_value,
    calculate_dcf_value (mkWorld o out)
    = (Ok (PyDict [("PV of FCF", pv_fcf);
                   ("Terminal Value", terminal_value);
                   ("PV of Terminal Value", pv_terminal);
                   ("Total Value", total_value)]),
       mkWorld o out)
    ∧ total_value = (pv_fcf + pv_terminal)%F
    ∧ (0 < x → 0 < w < 1 → g < w → - (1) < g →
       (Fin 0 < pv_fcf)%F ∧ (Fin 0 < terminal_value)%F
       ∧ (Fin 0 < pv_terminal)%F ∧ (Fin 0 < total_value)%F).
Proof.
  intros Hp Hfcf Hw Hg Hn.
  pose proof (calculate_dcf_value_one_year o out df (Fin x) (Fin w) (Fin g)
                Hp Hfcf Hw Hg Hn) as Hrun.
  cbv zeta in Hrun.
  eexists _, _, _, _. split; [exact Hrun|]. split; [reflexivity|].
  intros Hx [Hw0 Hw1] Hgw Hg1.
  assert (0 < 1 + g) as H1g by (qc2q; cbn in *; lra).
  assert (0 < w - g) as Hwg by (qc2q; lra).
  assert (0 < 1 + w) as H1w by by apply Qc_one_plus_pos.
  cbn [fmul fadd fsub fopp]. rewrite fpow_fin.
  change (w + - g) with (w - g).
  rewrite (fdiv_fin _ (w - g)) by by apply Qc_pos_nonzero.
  rewrite !(fdiv_fin _ ((1 + w) ^ 1)) by by apply Qc_pos_nonzero, Qc_pow_pos.
  assert (0 < x / (1 + w) ^ 1) as Hpv by by apply Qc_div_pos, Qc_pow_pos.
  assert (0 < x * (1 + g) / (w - g)) as Htv
    by by apply Qc_div_pos; [apply Qc_mul_pos|].
  assert (0 < x * (1 + g) / (w - g) / (1 + w) ^ 1) as Hpvt
    by by apply Qc_div_pos; [|apply Qc_pow_pos].
  cbn [fadd flt]. repeat split; try done. by apply Qcplus_pos_pos.
Qed.

(** C8, a terminal growth rate below -1.  A cash flow of 79 over one year,
    WACC 0.5 and terminal growth -2 meet the preconditions (the cash flow is
    positive, WACC lies in (0,1) and exceeds the terminal growth rate), and
    the valuation returns a Terminal Value of -31.6 and a present value of
    it of about -21.07: two of the four values are negative. *)
Lemma dcf_value_negative_terminal_value :
  let w := Q2Qc (1 # 2) in
  let g := Qc_of_Z (-2) in
  let o := projected [Fz 79] (Fin w) (Fin g) 1 in
  run calculate_dcf_value o
  = (Ok (PyDict [("PV of FCF", Fin (Q2Qc (158 # 3)));
                 ("Terminal Value", Fin (Q2Qc (-158 # 5)));
                 ("PV of Terminal Value", Fin (Q2Qc (-316 # 15)));
                 ("Total Value", Fin (Q2Qc (158 # 5)))]),
     mkWorld o [])
  ∧ 0 < Qc_of_Z 79
  ∧ 0 < w < 1
  ∧ g < w
  ∧ (Fin (Q2Qc (-158 # 5)) < Fin 0)%F
  ∧ (Fin (Q2Qc (-316 # 15)) < Fin 0)%F.
Proof.
  cbv zeta. split; [|by vm_compute].
  unfold run.
  erewrite calculate_dcf_value_one_year; [|reflexivity..].
  unfold Fz. cbn [fadd fsub fopp fmul]. rewrite !fpow_fin.
  rewrite !fdiv_fin
    by (intros E; apply (f_equal this) in E; vm_compute in E; discriminate).
  cbn [fadd].
  apply (f_equal (λ d, (Ok (PyDict d), _))).
  repeat apply (f_equal2 cons); try reflexivity;
    apply (f_equal (pair _)), Fin_of_this; vm_compute; reflexivity.
Qed.

(** ** The valuation against the specification *)

(** The valuation of a single year, written with the formulas of the
    specification. *)
Lemma calculate_dcf_value_one_year_spec o out df (x w g : Qc) :
  projections o = Some df →
  pd.columns df !! "FCF" = Some [Fin x] →
  wacc o = Some (Fin w) →
  terminal_growth o = Some (Fin g) →
  projection_years o = Some 1%nat →
  1 + w ≠ 0 →
  w ≠ g →
  ∃ pv_fcf terminal_value pv_terminal total_value,
    valuation_spec [x] w g = Some (pv_fcf, terminal_value, pv_terminal, total_value)
    ∧ calculate_dcf_value (mkWorld o out)
      = (Ok (PyDict [("PV of FCF", Fin pv_fcf);
                     ("Terminal Value", Fin terminal_value);
                     ("PV of Terminal Value", Fin pv_terminal);
                     ("Total Value", Fin total_value)]),
         mkWorld o out).
Proof.
  intros Hp Hfcf Hw Hg Hn H1w Hwg.
  eexists _, _, _, _. split; [reflexivity|].
  erewrite calculate_dcf_value_one_year by eassumption.
  assert (w - g ≠ 0) as Hd.
  { intros E. apply Hwg. rewrite <- (Qcplus_0_l g), <- E. ring. }
  assert ((1 + w) ^ 1 ≠ 0) as Hd1 by (cbn [Qcpower]; by rewrite Qcmult_1_r).
  cbn [fmul fadd fsub fopp]. rewrite fpow_fin.
  change (w + - g) with (w - g).
  rewrite !fdiv_fin by done. cbn [fadd].
  unfold pv_fcf_spec, terminal_value_spec. cbn [imap sum_q foldr length].
  by rewrite Qcplus_0_r.
Qed.

(** X14.  For a single projected year the code returns the four values of the
    specification. *)
Lemma dcf_value_one_year_meets_spec o out df (x w g : Qc) :
  projections o = Some df →
  pd.columns df !! "FCF" = Some [Fin x] →
  wacc o = Some (Fin w) →
  terminal_growth o = Some (Fin g) →
  projection_years o = Some 1%nat →
  1 + w ≠ 0 →
  w ≠ g →
  ∃ pv_fcf terminal_value pv_terminal total_value,
    valuation_spec [x] w g = Some (pv_fcf, terminal_value, pv_terminal, total_value)
    ∧ calculate_dcf_value (mkWorld o out)
      = (Ok (PyDict [("PV of FCF", Fin pv_fcf);
                     ("Terminal Value", Fin terminal_value);
                     ("PV of Terminal Value", Fin pv_terminal);
                     ("Total Value", Fin total_value)]),
         mkWorld o out).
Proof. apply calculate_dcf_value_one_year_spec. Qed.

(** C1 fails on the code.  For two projected years of 100 each, at WACC 0.10
    and terminal growth 0.02, the specification gives the four numbers
    21000/121, 1275, 127500/121 and 13500/11; [calculate_dcf_value] sums
    whole columns instead of the cash flow of each year, cannot convert the
    resulting series and returns [None].  The repository's own [test_run],
    over five years, stops there for the same reason. *)
Theorem dcf_value_unavailable_beyond_one_year :
  let o := projected [Fz 100; Fz 100] (rate 10) (rate 2) 2 in
  run calculate_dcf_value o
  = (Ok PyNone,
     mkWorld o ["Error calculating DCF value: cannot convert the series to <class 'float'>"])
  ∧ (∃ pv_fcf terminal_value pv_terminal total_value,
       valuation_spec [Qc_of_Z 100; Qc_of_Z 100] (Q2Qc (10 # 100)) (Q2Qc (2 # 100))
       = Some (pv_fcf, terminal_value, pv_terminal, total_value)
       ∧ this pv_fcf = (21000 # 121)%Q
       ∧ this terminal_value = (1275 # 1)%Q
       ∧ this pv_terminal = (127500 # 121)%Q
       ∧ this total_value = (13500 # 11)%Q)
  ∧ ∀ os_remove draw_figures build_pdf format_money,
      let '(returned_value, after) :=
        test_run (read_back test_frame) written os_remove draw_figures build_pdf
          format_money (mkWorld init []) in
      returned_value = Ok PyNone
      ∧ stdout after
        = ["Starting DCF Analysis test run...";
           "Test data created successfully: test_financial_data.csv";
           "Financial statements loaded successfully!";
           "Test inputs:"; "WACC: 0.1"; "Terminal Growth: 0.02"; "Projection Years: 5";
           "Error calculating DCF value: cannot convert the series to <class 'float'>"].
Proof.
  split; [|split].
  - cbv zeta. unfold run.
    erewrite calculate_dcf_value_fails_beyond_one_year with (n := 2%nat);
      [reflexivity..|lia].
  - eexists _, _, _, _. split; [reflexivity|]. by vm_compute.
  - intros. by vm_compute.
Qed.

(** ** The stages and their caller *)

(** C9 fails on the code.  [project_financials] returns [None] when it
    fails (a table without records) and [None] when it succeeds, and
    [test_run] does not look at what it returns: with a file that holds the
    header line only, the projection reports its failure and the valuation
    stage runs all the same, failing in turn on the missing FCF column. *)
Theorem projection_failure_is_not_signalled :
  (let failed := run project_financials (analysis_of header_only_frame) in
   let succeeded := run project_financials (analysis_of two_record_frame) in
   fst failed = Ok PyNone
   ∧ stdout (snd failed)
     = ["Error projecting financials: single positional indexer is out-of-bounds"]
   ∧ fst succeeded = Ok PyNone
   ∧ stdout (snd succeeded) = [])
  ∧ ∀ os_remove draw_figures build_pdf format_money,
      let '(returned_value, after) :=
        test_run (read_back header_only_frame) written os_remove draw_figures build_pdf
          format_money (mkWorld init []) in
      returned_value = Ok PyNone
      ∧ stdout after
        = ["Starting DCF Analysis test run...";
           "Test data created successfully: test_financial_data.csv";
           "Financial statements loaded successfully!";
           "Test inputs:"; "WACC: 0.1"; "Terminal Growth: 0.02"; "Projection Years: 5";
           "Error projecting financials: single positional indexer is out-of-bounds";
           "Error calculating DCF value: 'FCF'"].
Proof.
  split.
  - by vm_compute.
  - intros. by vm_compute.
Qed.

(** ** The theorems at sample inputs *)


(** C2 on two records. *)
Lemma calculate_free_cash_flow_witness :
  ∃ fcf,
    fst (run calculate_free_cash_flow (analysis_of two_record_frame)) = Ok (PySeries fcf)
    ∧ length fcf = 2%nat
    ∧ fcf !! 0%nat
      = Some ((Fz 100 - Fz 80) * (Fin 1 - tax_rate) + Fz 5 - Fz 7 - Fz 2)%F.
Proof.
  destruct (calculate_free_cash_flow_rows (analysis_of two_record_frame) []
              two_record_frame [Fz 100; Fz 110] [Fz 80; Fz 90] [Fz 5; Fz 5]
              [Fz 7; Fz 7] [Fz 2; Fz 2])
    as (ebit & nopat & fcf & Hrun & _ & _ & Hlen & Hrows);
    [vm_compute; reflexivity..|].
  exists fcf. unfold run. rewrite Hrun. split; [reflexivity|]. split; [exact Hlen|].
  apply (Hrows 0%nat (Fz 100) (Fz 80) (Fz 5) (Fz 7) (Fz 2)); reflexivity.
Defined.

(** C3 on two records, projected over five years. *)
Lemma project_financials_witness :
  ∃ p_revenue p_ebit p_fcf : list Qc,
    fst (run project_financials (analysis_of two_record_frame)) = Ok PyNone
    ∧ (projections (self (snd (run project_financials (analysis_of two_record_frame))))
       = Some (pd.mkDataFrame 5
                 (<["FCF" := Fin <$> p_fcf]> (<["EBIT" := Fin <$> p_ebit]>
                    (<["Revenue" := Fin <$> p_revenue]> ∅)))))
    ∧ ∃ r, p_revenue !! 0%nat = Some r ∧ p_fcf !! 0%nat
           = Some (r * mean_q (margins [Qc_of_Z 20; Qc_of_Z 20] [Qc_of_Z 100; Qc_of_Z 110])
                   * (1 - Q2Qc (21 # 100))).
Proof.
  destruct (project_financials_formulas (analysis_of two_record_frame) []
              two_record_frame [Qc_of_Z 100; Qc_of_Z 110] [Qc_of_Z 20; Qc_of_Z 20]
              (Qc_of_Z 110) (Q2Qc (2 # 100)) 5)
    as (p_revenue & p_ebit & p_fcf & Hrun & _ & Hrows).
  - reflexivity.
  - vm_compute. reflexivity.
  - vm_compute. reflexivity.
  - reflexivity.
  - simpl. lia.
  - repeat constructor; discriminate.
  - reflexivity.
  - reflexivity.
  - reflexivity.
  - exists p_revenue, p_ebit, p_fcf. unfold run. rewrite Hrun.
    split; [reflexivity|]. split; [reflexivity|].
    destruct (Hrows 1%nat) as (r & e & f & Hr & He & Hf & _ & -> & ->); [lia|].
    exists r. split; [exact Hr|exact Hf].
Defined.

(** C4 on five years from 10% to 2%. *)
Lemma growth_rates_witness :
  ∃ gs : list Qc,
    np.linspace (Fin (Q2Qc (1 # 10))) (Fin (Q2Qc (1 # 50))) 5 = Fin <$> gs
    ∧ length gs = 5%nat
    ∧ head gs = Some (Q2Qc (1 # 10))
    ∧ last gs = Some (Q2Qc (1 # 50)).
Proof.
  destruct (growth_rates_glide_path (Q2Qc (1 # 10)) (Q2Qc (1 # 50)) 5)
    as (gs & Hgs & Hlen & Hhead & Hlast & _); [lia|].
  exists gs. split; [exact Hgs|]. split; [exact Hlen|]. split; [exact Hhead|].
  apply Hlast. lia.
Defined.

(** C6 on the table of two records: no failure is reported. *)
Lemma project_financials_no_guard_witness :
  ∃ p_revenue p_ebit p_fcf,
    project_financials (mkWorld (analysis_of two_record_frame) [])
    = (Ok PyNone,
       mkWorld
         (set_projections
            (Some (pd.mkDataFrame 5
                     (<["FCF" := p_fcf]> (<["EBIT" := p_ebit]>
                        (<["Revenue" := p_revenue]> ∅)))))
            (analysis_of two_record_frame))
         []).
Proof.
  destruct (project_financials_reports_only_empty_table (analysis_of two_record_frame) []
              two_record_frame [Fz 100; Fz 110] [Fz 20; Fz 20] (rate 2) 5)
    as [_ Hruns]; [reflexivity|vm_compute; reflexivity..|reflexivity|reflexivity|].
  destruct Hruns as (p_revenue & p_ebit & p_fcf & Hrun & _); [discriminate|].
  exists p_revenue, p_ebit, p_fcf. exact Hrun.
Defined.

(** C7 on the rates 10 % and 2 %. *)
Lemma projected_revenue_year_over_year_witness :
  let gs := [Q2Qc (1 # 10); Q2Qc (1 # 50)] in
  let revenue := projected_revenue (Fz 100) (Fin <$> gs) 2 in
  head revenue = Some (Fz 100 * (Fin 1 + Fin (Q2Qc (1 # 10))))%F
  ∧ (increasing (Fz 100 :: revenue) → Forall (λ g, 0 < g) gs)
  ∧ never_decreasing (Fz 100 :: revenue).
Proof.
  cbv zeta.
  destruct (projected_revenue_year_over_year (Qc_of_Z 100)
              [Q2Qc (1 # 10); Q2Qc (1 # 50)])
    as (Hfirst & Honly_if & Hif); [reflexivity|].
  split; [by apply Hfirst|]. split; [exact Honly_if|].
  apply Hif. repeat constructor; vm_compute; discriminate.
Defined.

(** C5 on one year of 79 with both rates at 5%. *)
Lemma dcf_value_equal_rates_witness :
  ∃ pv_fcf terminal_value pv_terminal total_value,
    calculate_dcf_value (mkWorld (projected [Fz 79] (rate 5) (rate 5) 1) [])
    = (Ok (PyDict [("PV of FCF", pv_fcf);
                   ("Terminal Value", terminal_value);
                   ("PV of Terminal Value", pv_terminal);
                   ("Total Value", total_value)]),
       mkWorld (projected [Fz 79] (rate 5) (rate 5) 1) [])
    ∧ ¬ is_finite terminal_value
    ∧ ¬ is_finite pv_terminal
    ∧ ¬ is_finite total_value.
Proof.
  apply (dcf_value_equal_rates_not_guarded (projected [Fz 79] (rate 5) (rate 5) 1) []
           (pd.mkDataFrame 1 (<["FCF" := [Fz 79]]> ∅)) (Qc_of_Z 79) (Q2Qc (5 # 100)));
    reflexivity.
Defined.

(** C8 on a cash flow of 79 over one year, WACC 10 %, terminal growth
    2 %. *)
Lemma dcf_value_single_year_total_and_sign_witness :
  ∃ pv_fcf terminal_value pv_terminal total_value,
    run calculate_dcf_value (projected [Fz 79] (rate 10) (rate 2) 1)
    = (Ok (PyDict [("PV of FCF", pv_fcf);
                   ("Terminal Value", terminal_value);
                   ("PV of Terminal Value", pv_terminal);
                   ("Total Value", total_value)]),
       mkWorld (projected [Fz 79] (rate 10) (rate 2) 1) [])
    ∧ total_value = (pv_fcf + pv_terminal)%F
    ∧ (Fin 0 < pv_fcf)%F ∧ (Fin 0 < terminal_value)%F
    ∧ (Fin 0 < pv_terminal)%F ∧ (Fin 0 < total_value)%F.
Proof.
  destruct (dcf_value_single_year_total_and_sign
              (projected [Fz 79] (rate 10) (rate 2) 1) []
              (pd.mkDataFrame 1 (<["FCF" := [Fz 79]]> ∅)) (Qc_of_Z 79)
              (Q2Qc (10 # 100)) (Q2Qc (2 # 100))
              eq_refl eq_refl eq_refl eq_refl eq_refl)
    as (pv_fcf & terminal_value & pv_terminal & total_value & Hrun & Htotal & Hsign).
  exists pv_fcf, terminal_value, pv_terminal, total_value.
  split; [exact Hrun|]. split; [exact Htotal|].
  apply Hsign; [reflexivity|split; reflexivity|reflexivity|reflexivity].
Defined.

(** * Further properties of the stages *)

(** ** Loading, case by case *)

Lemma missing_columns_nil_iff df :
  missing_columns df = []
  ↔ ∀ col, col ∈ required_columns → is_Some (pd.columns df !! col).
Proof.
  split.
  - intros Hnil col Hin.
    destruct (pd.columns df !! col) as [s|] eqn:Hcol; [by eexists|].
    by destruct (missing_columns_nonempty df col Hin Hcol).
  - intros Hall.
    destruct (missing_columns df) as [|col cols] eqn:Hmiss; [done|].
    assert (col ∈ missing_columns df) as Hin by (rewrite Hmiss; left).
    apply list_elem_of_filter in Hin as [Hnone Hin].
    destruct (Hall col Hin) as [s Hs]. congruence.
Qed.

Section LoadingCases.

Variable read_csv : string → result pd.DataFrame.

Lemma load_data_loaded filepath df o out :
  read_csv filepath = Ok df →
  missing_columns df = [] →
  load_data read_csv filepath (mkWorld o out)
  = (Ok (PyBool true),
     mkWorld (set_statements (Some df) o)
       (out ++ ["Financial statements loaded successfully!"])).
Proof.
  intros Hread Hmiss.
  unfold load_data, then_return, try_except, bind, lift, modify_self, raise,
    fall_through, print, ret.
  rewrite Hread, Hmiss. reflexivity.
Qed.

Lemma load_data_incomplete filepath df o out :
  read_csv filepath = Ok df →
  missing_columns df ≠ [] →
  load_data read_csv filepath (mkWorld o out)
  = (Ok (PyBool false),
     mkWorld (set_statements (Some df) o)
       (out ++ ["Error loading file: Missing required columns: "
                +:+ String.concat ", " (missing_columns df)])).
Proof.
  intros Hread Hmiss.
  unfold load_data, then_return, try_except, bind, lift, modify_self, raise,
    returned, print, ret.
  rewrite Hread. destruct (missing_columns df); [done|]. reflexivity.
Qed.

Lemma load_data_unreadable filepath e o out :
  read_csv filepath = Raise e →
  load_data read_csv filepath (mkWorld o out)
  = (Ok (PyBool false), mkWorld o (out ++ ["Error loading file: " +:+ str e])).
Proof.
  intros Hread.
  unfold load_data, then_return, try_except, bind, lift, returned, print, ret.
  rewrite Hread. reflexivity.
Qed.

(** X1.  [load_data] returns [True] exactly when the file parses as a table
    that has each of the five required columns. *)
Theorem load_data_true_iff filepath w :
  fst (load_data read_csv filepath w) = Ok (PyBool true)
  ↔ ∃ df, read_csv filepath = Ok df
          ∧ ∀ col, col ∈ required_columns → is_Some (pd.columns df !! col).
Proof.
  destruct w as [o out].
  destruct (read_csv filepath) as [df|e] eqn:Hread.
  - destruct (decide (missing_columns df = [])) as [Hmiss|Hmiss].
    + rewrite (load_data_loaded _ _ _ _ Hread Hmiss). split; [|done].
      intros _. exists df. split; [done|]. by apply missing_columns_nil_iff.
    + rewrite (load_data_incomplete _ _ _ _ Hread Hmiss). split; [done|].
      intros (df' & [= <-] & Hall). by apply missing_columns_nil_iff in Hall.
  - rewrite (load_data_unreadable _ _ _ _ Hread). split; [done|].
    by intros (df' & [=] & _).
Qed.


End LoadingCases.

(** ** Free cash flow, case by case *)

Lemma required_columns_present df :
  (∀ col, col ∈ required_columns → is_Some (pd.columns df !! col))
  ↔ is_Some (pd.columns df !! "Revenue")
    ∧ is_Some (pd.columns df !! "Operating_Expenses")
    ∧ is_Some (pd.columns df !! "Depreciation")
    ∧ is_Some (pd.columns df !! "Capex")
    ∧ is_Some (pd.columns df !! "Change_Working_Capital").
Proof.
  rewrite <- Forall_forall. unfold required_columns.
  rewrite !Forall_cons, Forall_nil. tauto.
Qed.

Section FreeCashFlowCases.

Variables (o : DCFAnalysis) (out : list string) (df : pd.DataFrame).
Hypothesis Hst : statements o = Some df.

Lemma calculate_free_cash_flow_completes revenue opex depreciation capex cwc :
  pd.columns df !! "Revenue" = Some revenue →
  pd.columns df !! "Operating_Expenses" = Some opex →
  pd.columns df !! "Depreciation" = Some depreciation →
  pd.columns df !! "Capex" = Some capex →
  pd.columns df !! "Change_Working_Capital" = Some cwc →
  let ebit := zip_with fsub revenue opex in
  let nopat := (λ v, v * (Fin 1 - tax_rate))%F <$> ebit in
  let fcf :=
    zip_with fsub (zip_with fsub (zip_with fadd nopat depreciation) capex) cwc in
  calculate_free_cash_flow (mkWorld o out)
  = (Ok (PySeries fcf),
     mkWorld
       (set_statements
          (Some (pd.mkDataFrame (pd.index df)
                   (<["FCF" := fcf]> (<["NOPAT" := nopat]> (<["EBIT" := ebit]>
                      (pd.columns df))))))
          o)
       out).
Proof.
  intros Hrev Hopex Hdep Hcap Hcwc ebit nopat fcf.
  apply then_return_returned, try_except_ok.
  do 11 step. reflexivity.
Qed.

Lemma statements_col_missing col :
  pd.columns df !! col = None →
  statements_col col (mkWorld o out) = (Raise (KeyError col), mkWorld o out).
Proof.
  intros Hcol. unfold statements_col, attr, bind, get_self, lift, ret, pd.getitem.
  cbn. by rewrite Hst, Hcol.
Qed.

Lemma statements_missing_attr w :
  statements (self w) = None →
  ∃ line, calculate_free_cash_flow w = (Ok PyNone, mkWorld (self w) (stdout w ++ [line])).
Proof.
  intros Hnone. destruct w as [o' out']. cbn in Hnone.
  assert (∃ e, statements_col "Revenue" (mkWorld o' out') = (Raise e, mkWorld o' out'))
    as [e He].
  { eexists. unfold statements_col, attr, get_self, raise, bind. cbn.
    rewrite Hnone. reflexivity. }
  eexists. apply then_return_returned.
  erewrite try_except_raise by (apply bind_raise, He). reflexivity.
Qed.

(** Without Revenue or Operating_Expenses nothing is computed. *)
Lemma calculate_free_cash_flow_no_revenue :
  pd.columns df !! "Revenue" = None →
  calculate_free_cash_flow (mkWorld o out)
  = (Ok PyNone,
     mkWorld o (out ++ ["Error calculating free cash flow: 'Revenue'"])).
Proof.
  intros Hrev. apply then_return_returned.
  erewrite try_except_raise by by apply bind_raise, statements_col_missing.
  reflexivity.
Qed.

Lemma calculate_free_cash_flow_no_expenses revenue :
  pd.columns df !! "Revenue" = Some revenue →
  pd.columns df !! "Operating_Expenses" = None →
  calculate_free_cash_flow (mkWorld o out)
  = (Ok PyNone,
     mkWorld o (out ++ ["Error calculating free cash flow: 'Operating_Expenses'"])).
Proof.
  intros Hrev Hopex. apply then_return_returned.
  erewrite try_except_raise
    by (step; by apply bind_raise, statements_col_missing).
  reflexivity.
Qed.

End FreeCashFlowCases.

(** Two columns of closed values, compared entry by entry. *)
Ltac columns_equal :=
  repeat apply (f_equal2 cons);
  try reflexivity;
  apply Fin_of_this; vm_compute; reflexivity.

(** C2, what the method hands back.  On [two_record_frame] the table with
    the three columns added stays in [statements], and the value returned
    is its FCF column, [[11.8, 11.8]], alone: a series that is neither the
    EBIT nor the NOPAT column which the table has gained. *)
Lemma calculate_free_cash_flow_returns_fcf_column :
  ∃ ebit nopat fcf,
    run calculate_free_cash_flow (analysis_of two_record_frame)
    = (Ok (PySeries fcf),
       mkWorld
         (set_statements
            (Some (pd.mkDataFrame 2
                     (<["FCF" := fcf]> (<["NOPAT" := nopat]> (<["EBIT" := ebit]>
                        (pd.columns two_record_frame))))))
            (analysis_of two_record_frame))
         [])
    ∧ ebit = [Fz 20; Fz 20]
    ∧ nopat = [Fin (Q2Qc (79 # 5)); Fin (Q2Qc (79 # 5))]
    ∧ fcf = [Fin (Q2Qc (59 # 5)); Fin (Q2Qc (59 # 5))]
    ∧ fcf ≠ ebit
    ∧ fcf ≠ nopat.
Proof.
  pose proof (calculate_free_cash_flow_completes (analysis_of two_record_frame) []
                two_record_frame eq_refl [Fz 100; Fz 110] [Fz 80; Fz 90]
                [Fz 5; Fz 5] [Fz 7; Fz 7] [Fz 2; Fz 2]
                eq_refl eq_refl eq_refl eq_refl eq_refl) as Hrun.
  cbv zeta in Hrun.
  eexists _, _, _. split; [exact Hrun|].
  split; [|split; [|split; [|split]]].
  - cbn [zip_with]. columns_equal.
  - cbn [zip_with fmap list_fmap]. columns_equal.
  - cbn [zip_with fmap list_fmap]. columns_equal.
  - intros E. apply (f_equal first_value) in E. vm_compute in E. discriminate.
  - intros E. apply (f_equal first_value) in E. vm_compute in E. discriminate.
Qed.

Lemma calculate_free_cash_flow_late_failure o out df revenue opex col :
  statements o = Some df →
  pd.columns df !! "Revenue" = Some revenue →
  pd.columns df !! "Operating_Expenses" = Some opex →
  head (filter (λ c, pd.columns df !! c = None)
          ["Depreciation"; "Capex"; "Change_Working_Capital"]) = Some col →
  let ebit := zip_with fsub revenue opex in
  let nopat := (λ v, v * (Fin 1 - tax_rate))%F <$> ebit in
  calculate_free_cash_flow (mkWorld o out)
  = (Ok PyNone,
     mkWorld
       (set_statements
          (Some (pd.mkDataFrame (pd.index df)
                   (<["NOPAT" := nopat]> (<["EBIT" := ebit]> (pd.columns df)))))
          o)
       (out ++ ["Error calculating free cash flow: '" +:+ col +:+ "'"])).
Proof.
  intros Hst Hrev Hopex Hcol ebit nopat.
  apply then_return_returned.
  assert (∀ c s, c ≠ "EBIT" → c ≠ "NOPAT" →
            pd.columns df !! c = s →
            <["NOPAT" := nopat]> (<["EBIT" := ebit]> (pd.columns df)) !! c = s)
    as Hkeep by (intros c s ? ? <-; by rewrite !lookup_insert_ne).
  destruct (pd.columns df !! "Depreciation") as [dep|] eqn:Hdep;
    [destruct (pd.columns df !! "Capex") as [cap|] eqn:Hcap;
      [destruct (pd.columns df !! "Change_Working_Capital") as [cwc|] eqn:Hcwc|]|].
  - rewrite !filter_cons_False in Hcol by (by rewrite ?Hdep, ?Hcap, ?Hcwc). done.
  - rewrite !filter_cons_False, filter_cons_True in Hcol
      by (by rewrite ?Hdep, ?Hcap, ?Hcwc).
    injection Hcol as <-.
    erewrite try_except_raise.
    2:{ do 8 step. apply bind_raise.
        eapply statements_col_missing; [reflexivity|by apply Hkeep]. }
    reflexivity.
  - rewrite filter_cons_False, filter_cons_True in Hcol
      by (by rewrite ?Hdep, ?Hcap).
    injection Hcol as <-.
    erewrite try_except_raise.
    2:{ do 7 step. apply bind_raise.
        eapply statements_col_missing; [reflexivity|by apply Hkeep]. }
    reflexivity.
  - rewrite filter_cons_True in Hcol by (by rewrite ?Hdep).
    injection Hcol as <-.
    erewrite try_except_raise.
    2:{ do 6 step. apply bind_raise.
        eapply statements_col_missing; [reflexivity|by apply Hkeep]. }
    reflexivity.
Qed.

(** X4.  When Depreciation, Capex or Change_Working_Capital is the first column
    found missing, [calculate_free_cash_flow] returns [None] and names it,
    and the table keeps the EBIT and NOPAT columns computed before the
    failure, without an FCF column of this run. *)
Theorem calculate_free_cash_flow_partial o out df revenue opex col :
  statements o = Some df →
  pd.columns df !! "Revenue" = Some revenue →
  pd.columns df !! "Operating_Expenses" = Some opex →
  head (filter (λ c, pd.columns df !! c = None)
          ["Depreciation"; "Capex"; "Change_Working_Capital"]) = Some col →
  let ebit := zip_with fsub revenue opex in
  let nopat := (λ v, v * (Fin 1 - tax_rate))%F <$> ebit in
  calculate_free_cash_flow (mkWorld o out)
  = (Ok PyNone,
     mkWorld
       (set_statements
          (Some (pd.mkDataFrame (pd.index df)
                   (<["NOPAT" := nopat]> (<["EBIT" := ebit]> (pd.columns df)))))
          o)
       (out ++ ["Error calculating free cash flow: '" +:+ col +:+ "'"])).
Proof. apply calculate_free_cash_flow_late_failure. Qed.

(** X3.  [calculate_free_cash_flow] returns a series only if the object
    holds a table with the five required columns; and on the tables of this
    model, whose cells are all floats, holding them is enough. *)
Theorem calculate_free_cash_flow_succeeds_iff w :
  (∃ fcf, fst (calculate_free_cash_flow w) = Ok (PySeries fcf))
  ↔ ∃ df, statements (self w) = Some df
          ∧ ∀ col, col ∈ required_columns → is_Some (pd.columns df !! col).
Proof.
  split.
  - intros [fcf Hrun].
    destruct (statements (self w)) as [df|] eqn:Hst.
    2:{ destruct (statements_missing_attr w Hst) as [line Hfail].
        rewrite Hfail in Hrun. done. }
    exists df. split; [done|]. apply required_columns_present.
    destruct w as [o out]. cbn in Hst.
    destruct (pd.columns df !! "Revenue") as [revenue|] eqn:Hrev.
    2:{ by rewrite (calculate_free_cash_flow_no_revenue o out df Hst Hrev) in Hrun. }
    destruct (pd.columns df !! "Operating_Expenses") as [opex|] eqn:Hopex.
    2:{ by rewrite (calculate_free_cash_flow_no_expenses o out df Hst _ Hrev Hopex) in Hrun. }
    destruct (head (filter (λ c, pd.columns df !! c = None)
                      ["Depreciation"; "Capex"; "Change_Working_Capital"]))
      as [col|] eqn:Hcol.
    { by rewrite (calculate_free_cash_flow_late_failure o out df _ _ col Hst Hrev Hopex Hcol)
        in Hrun. }
    apply head_None in Hcol.
    assert (∀ c, c ∈ ["Depreciation"; "Capex"; "Change_Working_Capital"] →
              is_Some (pd.columns df !! c)) as Hall.
    { intros c Hc. destruct (pd.columns df !! c) eqn:E; [by eexists|].
      by destruct (filter_nil_not_elem_of _ _ c Hcol E). }
    repeat split; try by eexists.
    + apply Hall. left.
    + apply Hall. right. left.
    + apply Hall. do 2 right. left.
  - intros (df & Hst & Hall). destruct w as [o out]. cbn in Hst.
    apply required_columns_present in Hall
      as ([revenue Hrev] & [opex Hopex] & [dep Hdep] & [cap Hcap] & [cwc Hcwc]).
    eexists.
    by rewrite (calculate_free_cash_flow_completes o out df Hst _ _ _ _ _
                  Hrev Hopex Hdep Hcap Hcwc).
Qed.

Lemma derived_columns_twice (m : gmap string (list float64)) ebit nopat fcf :
  <["FCF" := fcf]> (<["NOPAT" := nopat]> (<["EBIT" := ebit]>
     (<["FCF" := fcf]> (<["NOPAT" := nopat]> (<["EBIT" := ebit]> m)))))
  = <["FCF" := fcf]> (<["NOPAT" := nopat]> (<["EBIT" := ebit]> m)).
Proof.
  apply map_eq. intros k. rewrite !lookup_insert. by repeat case_decide.
Qed.

(** X5.  Deriving the free cash flow a second time changes nothing: the same
    series is returned and the table is the one left by the first run. *)
Theorem calculate_free_cash_flow_idempotent o out df :
  statements o = Some df →
  (∀ col, col ∈ required_columns → is_Some (pd.columns df !! col)) →
  ∃ fcf w1,
    calculate_free_cash_flow (mkWorld o out) = (Ok (PySeries fcf), w1)
    ∧ calculate_free_cash_flow w1 = (Ok (PySeries fcf), w1).
Proof.
  intros Hst Hall.
  apply required_columns_present in Hall
    as ([revenue Hrev] & [opex Hopex] & [dep Hdep] & [cap Hcap] & [cwc Hcwc]).
  eexists _, _. split.
  { by apply calculate_free_cash_flow_completes. }
  erewrite calculate_free_cash_flow_completes;
    [|reflexivity|cbn; by rewrite !lookup_insert_ne..].
  cbn [pd.index pd.columns]. rewrite derived_columns_twice, set_statements_twice.
  reflexivity.
Qed.

(** ** What the stages change and what they hand back *)

Section Footprints.

Context (R : relation world) `{!PreOrder R}.

Lemma preserves_ret {A} (a : A) : preserves R (ret a).
Proof. intros w r w' [= _ <-]. reflexivity. Qed.

Lemma preserves_raise {A} e : preserves R (@raise A e).
Proof. intros w r w' [= _ <-]. reflexivity. Qed.

Lemma preserves_lift {A} (x : result A) : preserves R (lift x).
Proof. intros w r w' [= _ <-]. reflexivity. Qed.

Lemma preserves_get_self : preserves R get_self.
Proof. intros w r w' [= _ <-]. reflexivity. Qed.

Lemma preserves_bind {A B} (m : M A) (k : A → M B) :
  preserves R m → (∀ a, preserves R (k a)) → preserves R (bind m k).
Proof.
  intros Hm Hk w r w'. unfold bind.
  destruct (m w) as [[a|e] w1] eqn:E.
  - intros H. etrans; [by eapply Hm|by eapply Hk].
  - intros [= _ <-]. by eapply Hm.
Qed.

Lemma preserves_try_except {A} (body : M A) handler :
  preserves R body → (∀ e, preserves R (handler e)) →
  preserves R (try_except body handler).
Proof.
  intros Hb Hh w r w'. unfold try_except.
  destruct (body w) as [[a|e] w1] eqn:E.
  - intros [= _ <-]. by eapply Hb.
  - intros H. etrans; [by eapply Hb|by eapply Hh].
Qed.

Lemma preserves_then_return m after :
  preserves R m → preserves R (then_return m after).
Proof.
  intros Hm. unfold then_return. apply preserves_bind; [done|].
  intros [v|]; apply preserves_ret.
Qed.

Lemma preserves_attr {A} (field : DCFAnalysis → option A) what :
  preserves R (attr field what).
Proof.
  unfold attr. apply preserves_bind; [apply preserves_get_self|].
  intros o. destruct (field o); [apply preserves_ret|apply preserves_raise].
Qed.

Lemma preserves_statements_col col : preserves R (statements_col col).
Proof.
  unfold statements_col. apply preserves_bind; [apply preserves_attr|].
  intros df. apply preserves_lift.
Qed.

Lemma preserves_projections_col col : preserves R (projections_col col).
Proof.
  unfold projections_col. apply preserves_bind; [apply preserves_attr|].
  intros df. apply preserves_lift.
Qed.

Lemma preserves_discounted year : preserves R (discounted year).
Proof.
  unfold discounted. apply preserves_bind; [apply preserves_projections_col|].
  intros fcf. apply preserves_bind; [apply preserves_attr|].
  intros w. apply preserves_ret.
Qed.

Lemma preserves_py_sum years acc : preserves R (py_sum discounted years acc).
Proof.
  revert acc. induction years as [|year years IH]; intros acc; cbn [py_sum].
  - apply preserves_ret.
  - apply preserves_bind; [apply preserves_discounted|].
    intros v. apply preserves_bind; [apply preserves_lift|]. intros acc'. apply IH.
Qed.

End Footprints.

#[local] Instance on_self_preorder (R : relation DCFAnalysis) `{!PreOrder R} :
  PreOrder (on_self R).
Proof.
  split.
  - intros w. unfold on_self. reflexivity.
  - intros w1 w2 w3. unfold on_self. intros H1 H2. by etrans.
Qed.

#[local] Instance same_but_projections_preorder : PreOrder same_but_projections.
Proof.
  split.
  - by intros o.
  - intros o1 o2 o3 (?&?&?&?) (?&?&?&?). repeat split; congruence.
Qed.

#[local] Instance same_but_statements_preorder : PreOrder same_but_statements.
Proof.
  split.
  - by intros o.
  - intros o1 o2 o3 (?&?&?&?) (?&?&?&?). repeat split; congruence.
Qed.

Lemma preserves_print (R : relation DCFAnalysis) `{!PreOrder R} line :
  preserves (on_self R) (print line).
Proof. intros w r w' [= _ <-]. unfold on_self. reflexivity. Qed.

Lemma preserves_modify (R : relation DCFAnalysis) f :
  (∀ o, R o (f o)) → preserves (on_self R) (modify_self f).
Proof. intros Hf w r w' [= _ <-]. apply Hf. Qed.

#[local] Instance silently_preorder (R : relation DCFAnalysis) `{!PreOrder R} :
  PreOrder (silently R).
Proof.
  split.
  - intros w. split; reflexivity.
  - intros w1 w2 w3 [H1 E1] [H2 E2]. split; [by etrans|congruence].
Qed.

Lemma preserves_modify_silently (R : relation DCFAnalysis) f :
  (∀ o, R o (f o)) → preserves (silently R) (modify_self f).
Proof. intros Hf w r w' [= _ <-]. split; [apply Hf|done]. Qed.

(** Closing a goal [preserves R m] along the structure of [m]. *)
Ltac footprint_step :=
  match goal with
  | |- PreOrder _ => apply _
  | |- ∀ _, _ => intros ?
  | |- preserves _ (then_return _ _) => apply preserves_then_return
  | |- preserves _ (try_except _ _) => apply preserves_try_except
  | |- preserves _ (statements_col _) => apply preserves_statements_col
  | |- preserves _ (projections_col _) => apply preserves_projections_col
  | |- preserves _ (py_sum discounted _ _) => apply preserves_py_sum
  | |- preserves _ (attr _ _) => apply preserves_attr
  | |- preserves _ (lift _) => apply preserves_lift
  | |- preserves _ (print _) => apply preserves_print
  | |- preserves _ (ret _) => apply preserves_ret
  | |- preserves _ (returned _) => apply preserves_ret
  | |- preserves _ fall_through => apply preserves_ret
  | |- preserves _ (raise _) => apply preserves_raise
  | |- preserves _ get_self => apply preserves_get_self
  | |- preserves (on_self _) (modify_self _) => apply preserves_modify; by intros []
  | |- preserves (silently _) (modify_self _) =>
      apply preserves_modify_silently; by intros []
  | |- preserves _ (bind _ _) => apply preserves_bind
  end.

Ltac footprint := repeat footprint_step.

Lemma preserves_statements_set col s :
  preserves (on_self same_but_statements) (statements_set col s).
Proof. unfold statements_set. footprint. Qed.

Lemma preserves_projections_set col s :
  preserves (on_self same_but_projections) (projections_set col s).
Proof. unfold projections_set. footprint. Qed.

(** The body of the valuation returns a dictionary or raises. *)
Lemma dcf_value_body_returns_dict (body : M (option pyobj)) w r w1 :
  body = (do n <- attr projection_years
               "unsupported operand type(s) for +: 'NoneType' and 'int'";
          do pv_fcf <- py_sum discounted (seq 1 n) (PyFloat (Fin 0));
          do fcf <- projections_col "FCF";
          do last_fcf <- lift (pd.iloc_last fcf);
          do g <- attr terminal_growth
               "unsupported operand type(s) for +: 'int' and 'NoneType'";
          let terminal_fcf := (last_fcf * (Fin 1 + g))%F in
          do w <- attr wacc "unsupported operand type(s) for -: 'NoneType' and 'float'";
          let terminal_value := (terminal_fcf / (w - g))%F in
          let pv_terminal := (terminal_value / (Fin 1 + w) ** n)%F in
          do total_value <- lift (py_add pv_fcf (PyFloat pv_terminal));
          do r_pv_fcf <- lift (py_float pv_fcf);
          do r_terminal_value <- lift (py_float (PyFloat terminal_value));
          do r_pv_terminal <- lift (py_float (PyFloat pv_terminal));
          do r_total_value <- lift (py_float total_value);
          returned (PyDict [("PV of FCF", r_pv_fcf);
                            ("Terminal Value", r_terminal_value);
                            ("PV of Terminal Value", r_pv_terminal);
                            ("Total Value", r_total_value)])) →
  body w = (Ok r, w1) → ∃ d, r = Some (PyDict d).
Proof.
  intros -> H.
  repeat (apply bind_inv_ok in H as (? & ? & _ & H)).
  unfold returned, ret in H. injection H as <- _. by eexists.
Qed.

(** X11.  The valuation only reads the object, never raises, and has two
    outcomes: the dictionary of the four values with nothing printed, or
    [None] with one line naming the error. *)
Theorem calculate_dcf_value_outcomes w :
  ∃ r w',
    calculate_dcf_value w = (Ok r, w')
    ∧ self w' = self w
    ∧ ((∃ d, r = PyDict d) ∧ stdout w' = stdout w
       ∨ r = PyNone
         ∧ ∃ e, stdout w' = stdout w ++ ["Error calculating DCF value: " +:+ str e]).
Proof.
  unfold calculate_dcf_value.
  match goal with
  | |- context [try_except ?b ?h] => remember b as body eqn:Hbody
  end.
  assert (preserves eq body) as Hreads by (subst body; footprint).
  unfold then_return, try_except, bind.
  destruct (body w) as [[r|e] w1] eqn:E.
  - destruct (dcf_value_body_returns_dict body w r w1 Hbody E) as [d ->].
    apply Hreads in E as <-.
    eexists _, _. split; [reflexivity|]. split; [done|]. left. by split; [eexists|].
  - apply Hreads in E as <-.
    eexists _, _. split; [reflexivity|]. split; [done|]. right. split; [done|].
    by exists e.
Qed.

(** X7.  [project_financials] never raises and always returns [None]; it
    changes nothing of the object but the projection, and prints nothing
    unless it failed, in which case it prints one line naming the error. *)
Theorem project_financials_outcomes w :
  ∃ w',
    project_financials w = (Ok PyNone, w')
    ∧ same_but_projections (self w) (self w')
    ∧ (stdout w' = stdout w
       ∨ ∃ e, stdout w' = stdout w ++ ["Error projecting financials: " +:+ str e]).
Proof.
  unfold project_financials.
  match goal with
  | |- context [try_except ?b ?h] => remember b as body eqn:Hbody
  end.
  assert (preserves (silently same_but_projections) body) as Hfoot.
  { subst body. footprint; unfold projections_set; footprint. }
  assert (∀ w0 r w1, body w0 = (Ok r, w1) → r = None) as Hnone.
  { subst body. intros w0 r w1 H.
    repeat (apply bind_inv_ok in H as (? & ? & _ & H)).
    unfold fall_through, ret in H. by injection H as <- _. }
  unfold then_return, try_except, bind.
  destruct (body w) as [[r|e] w1] eqn:E.
  - rewrite (Hnone _ _ _ E). apply Hfoot in E as [Hself Hout].
    eexists. split; [reflexivity|]. split; [done|]. by left.
  - apply Hfoot in E as [Hself Hout].
    eexists. split; [reflexivity|]. cbn. split; [done|]. right. exists e.
    by rewrite Hout.
Qed.

(** X6.  [calculate_free_cash_flow] never raises; it hands back a series with
    nothing printed, or [None] with one line naming the error, and it
    changes nothing of the object but the statements. *)
Theorem calculate_free_cash_flow_outcomes w :
  ∃ r w',
    calculate_free_cash_flow w = (Ok r, w')
    ∧ same_but_statements (self w) (self w')
    ∧ ((∃ fcf, r = PySeries fcf) ∧ stdout w' = stdout w
       ∨ r = PyNone
         ∧ ∃ e, stdout w'
                = stdout w ++ ["Error calculating free cash flow: " +:+ str e]).
Proof.
  unfold calculate_free_cash_flow.
  match goal with
  | |- context [try_except ?b ?h] => remember b as body eqn:Hbody
  end.
  assert (preserves (silently same_but_statements) body) as Hfoot.
  { subst body. footprint; unfold statements_set; footprint. }
  assert (∀ w0 r w1, body w0 = (Ok r, w1) → ∃ fcf, r = Some (PySeries fcf))
    as Hseries.
  { subst body. intros w0 r w1 H.
    repeat (apply bind_inv_ok in H as (? & ? & _ & H)).
    unfold returned, ret in H. injection H as <- _. by eexists. }
  unfold then_return, try_except, bind.
  destruct (body w) as [[r|e] w1] eqn:E.
  - destruct (Hseries _ _ _ E) as [fcf ->]. apply Hfoot in E as [Hself Hout].
    eexists _, _. split; [reflexivity|]. split; [done|]. left. by split; [eexists|].
  - apply Hfoot in E as [Hself Hout].
    eexists _, _. split; [reflexivity|]. cbn. split; [done|]. right. split; [done|].
    exists e. by rewrite Hout.
Qed.

(** ** The stages that reach outside never raise either *)

(** X16.  Whatever the file system, the plotting and the PDF library do,
    [load_data] and [generate_pdf_report] return a bool,
    [create_visualizations] the figures or [None], and [create_test_data]
    the file name or [None]: no exception leaves a stage. *)
Theorem external_stages_never_raise
    (read_csv : string → result pd.DataFrame)
    (to_csv : pd.DataFrame → string → result unit)
    (draw_figures : DCFAnalysis → result unit)
    (build_pdf : DCFAnalysis → list (string * float64) → string → result unit)
    filepath figures dcf_value name w :
  (∃ b w', load_data read_csv filepath w = (Ok (PyBool b), w'))
  ∧ (∃ r w', create_visualizations draw_figures w = (Ok r, w')
             ∧ (r = PyFigures ∨ r = PyNone))
  ∧ (∃ b w', generate_pdf_report build_pdf figures dcf_value name w
             = (Ok (PyBool b), w'))
  ∧ (∃ r w', create_test_data to_csv name w = (Ok r, w')
             ∧ (r = PyStr name ∨ r = PyNone)).
Proof.
  destruct w as [o out]. repeat split.
  - destruct (read_csv filepath) as [df|e] eqn:Hread.
    + destruct (decide (missing_columns df = [])) as [Hmiss|Hmiss].
      * eexists _, _. by apply load_data_loaded.
      * eexists _, _. by apply load_data_incomplete.
    + eexists _, _. by apply load_data_unreadable.
  - unfold create_visualizations, then_return, try_except, bind, get_self, lift,
      returned, print, ret.
    cbn. destruct (draw_figures o); eexists _, _; (split; [reflexivity|]); auto.
  - unfold generate_pdf_report, then_return, try_except, bind, get_self, lift,
      returned, print, ret.
    cbn. destruct (build_pdf o dcf_value name); eexists _, _; reflexivity.
  - unfold create_test_data, then_return, try_except, bind, lift, returned, print, ret.
    cbn. destruct (to_csv test_frame name); eexists _, _; (split; [reflexivity|]); auto.
Qed.

(** ** More on the valuation *)


Lemma projections_col_missing o out df col :
  projections o = Some df →
  pd.columns df !! col = None →
  projections_col col (mkWorld o out) = (Raise (KeyError col), mkWorld o out).
Proof.
  intros Hp Hcol. unfold projections_col, attr, bind, get_self, lift, ret, pd.getitem.
  cbn. by rewrite Hp, Hcol.
Qed.

Lemma calculate_dcf_value_no_fcf_column o out df n :
  projections o = Some df →
  pd.columns df !! "FCF" = None →
  projection_years o = Some n →
  calculate_dcf_value (mkWorld o out)
  = (Ok PyNone, mkWorld o (out ++ ["Error calculating DCF value: 'FCF'"])).
Proof.
  intros Hp Hfcf Hn.
  apply then_return_returned. erewrite try_except_raise.
  2:{ step. destruct n as [|n]; cbn [seq py_sum].
      - erewrite bind_ok by reflexivity.
        apply bind_raise. by eapply projections_col_missing.
      - apply bind_raise, bind_raise. unfold discounted.
        apply bind_raise. by eapply projections_col_missing. }
  reflexivity.
Qed.

(** X13.  A projection table without an FCF column, as a failed projection
    leaves it, makes the valuation fail on that key. *)
Theorem calculate_dcf_value_without_fcf o out df n :
  projections o = Some df →
  pd.columns df !! "FCF" = None →
  projection_years o = Some n →
  calculate_dcf_value (mkWorld o out)
  = (Ok PyNone, mkWorld o (out ++ ["Error calculating DCF value: 'FCF'"])).
Proof. apply calculate_dcf_value_no_fcf_column. Qed.

(** ** More on the projection *)

(** X8.  Projecting before the free cash flow was derived: the table has no
    EBIT column, the method reports that key, and the projection is left
    with its Revenue column alone. *)
Theorem project_financials_before_free_cash_flow o out df revenue base g n :
  statements o = Some df →
  pd.columns df !! "Revenue" = Some revenue →
  pd.columns df !! "EBIT" = None →
  last revenue = Some base →
  terminal_growth o = Some g →
  projection_years o = Some n →
  let growth_rates := np.linspace (historical_growth_of revenue) g n in
  project_financials (mkWorld o out)
  = (Ok PyNone,
     mkWorld
       (set_projections
          (Some (pd.mkDataFrame n
                   (<["Revenue" := projected_revenue base growth_rates n]> ∅)))
          o)
       (out ++ ["Error projecting financials: 'EBIT'"])).
Proof.
  intros Hst Hrev Hebit Hlast Hg Hn growth_rates.
  apply then_return_returned. erewrite try_except_raise.
  2:{ do 2 step. erewrite bind_ok by apply modify_self_ok.
      do 2 step. erewrite bind_ok by (apply lift_ok, iloc_last_ok, Hlast).
      step. erewrite bind_ok.
      2:{ apply lift_ok. unfold pd.setitem_list.
          rewrite decide_True by (cbn; apply projected_revenue_length). reflexivity. }
      erewrite bind_ok by apply modify_self_ok.
      rewrite set_projections_twice.
      apply bind_raise. by eapply statements_col_missing. }
  reflexivity.
Qed.

(** X9.  A projection that completes is a well-formed table: [N] rows, the
    three columns Revenue, EBIT and FCF and no other, each of [N] values,
    whatever the values are. *)
Theorem project_financials_shape o out df revenue ebit g n :
  statements o = Some df →
  pd.columns df !! "Revenue" = Some revenue →
  pd.columns df !! "EBIT" = Some ebit →
  revenue ≠ [] →
  terminal_growth o = Some g →
  projection_years o = Some n →
  ∃ p,
    projections (self (snd (project_financials (mkWorld o out)))) = Some p
    ∧ pd.index p = n
    ∧ dom (pd.columns p) = {["Revenue"; "EBIT"; "FCF"]}
    ∧ ∀ col s, pd.columns p !! col = Some s → length s = n.
Proof.
  intros Hst Hrev Hebit Hne Hg Hn.
  destruct (last revenue) as [base|] eqn:Hlast; [|by apply last_None in Hlast].
  rewrite (project_financials_completes o out df revenue ebit base g n) by done.
  eexists. split; [reflexivity|]. split; [done|]. split.
  - cbn [pd.columns]. rewrite !dom_insert_L, dom_empty_L. set_solver.
  - cbn [pd.columns]. intros col s.
    rewrite !lookup_insert. repeat case_decide; intros [= <-] || intros [=];
      by rewrite ?length_fmap, projected_revenue_length.
Qed.

Lemma project_financials_one_year_fin o out df (revenue ebit : list Qc)
    last_revenue (g : Qc) :
  statements o = Some df →
  pd.columns df !! "Revenue" = Some (Fin <$> revenue) →
  pd.columns df !! "EBIT" = Some (Fin <$> ebit) →
  length ebit = length revenue →
  (2 ≤ length revenue)%nat →
  Forall (λ r, r ≠ 0) revenue →
  last revenue = Some last_revenue →
  terminal_growth o = Some (Fin g) →
  projection_years o = Some 1%nat →
  let p_revenue := last_revenue * (1 + mean_q (growth_observations revenue)) in
  let p_ebit := p_revenue * mean_q (margins ebit revenue) in
  let p_fcf := p_ebit * (1 - Q2Qc (21 # 100)) in
  project_financials (mkWorld o out)
  = (Ok PyNone,
     mkWorld
       (set_projections
          (Some (pd.mkDataFrame 1
                   (<["FCF" := [Fin p_fcf]]> (<["EBIT" := [Fin p_ebit]]>
                      (<["Revenue" := [Fin p_revenue]]> ∅)))))
          o)
       out).
Proof.
  intros Hst Hrev Hebit Hlen H2 Hnz Hlast Hg Hn p_revenue p_ebit p_fcf.
  assert (revenue ≠ []) as Hne by (intros ->; cbn in H2; lia).
  erewrite project_financials_completes; try eassumption.
  2:{ rewrite fmap_last, Hlast. done. }
  cbv zeta.
  rewrite historical_growth_fin, linspace_one, avg_margin_fin by done.
  unfold projected_revenue, np.prod. cbn [seq fmap list_fmap firstn foldl].
  cbn [fmul fadd fsub fopp tax_rate].
  assert (last_revenue * (1 * (1 + mean_q (growth_observations revenue))) = p_revenue)
    as -> by (unfold p_revenue; ring).
  reflexivity.
Qed.

(** X10.  With a single projected year the terminal growth rate plays no part:
    the year grows at the historical rate. *)
Theorem project_financials_single_year o out df (revenue ebit : list Qc)
    last_revenue (g : Qc) :
  statements o = Some df →
  pd.columns df !! "Revenue" = Some (Fin <$> revenue) →
  pd.columns df !! "EBIT" = Some (Fin <$> ebit) →
  length ebit = length revenue →
  (2 ≤ length revenue)%nat →
  Forall (λ r, r ≠ 0) revenue →
  last revenue = Some last_revenue →
  terminal_growth o = Some (Fin g) →
  projection_years o = Some 1%nat →
  let p_revenue := last_revenue * (1 + mean_q (growth_observations revenue)) in
  let p_ebit := p_revenue * mean_q (margins ebit revenue) in
  let p_fcf := p_ebit * (1 - Q2Qc (21 # 100)) in
  project_financials (mkWorld o out)
  = (Ok PyNone,
     mkWorld
       (set_projections
          (Some (pd.mkDataFrame 1
                   (<["FCF" := [Fin p_fcf]]> (<["EBIT" := [Fin p_ebit]]>
                      (<["Revenue" := [Fin p_revenue]]> ∅)))))
          o)
       out).
Proof. apply project_financials_one_year_fin. Qed.

(** ** The stages in sequence *)

Lemma zip_with_fsub_fin (a b : list Qc) :
  zip_with fsub (Fin <$> a) (Fin <$> b) = Fin <$> zip_with Qcminus a b.
Proof.
  revert b. induction a as [|x a IH]; intros [|y b]; [done..|].
  cbn [fmap list_fmap zip_with]. by rewrite <- IH.
Qed.



(** X18.  The same three stages over a single year, on a table of two records or
    more with no zero revenue: nothing is printed, and the four values
    returned are those of the specification's formulas for the one cash flow
    lastRevenue * (1 + historicalGrowth) * avgMargin * (1 - 0.21), with
    EBIT = Revenue - Operating_Expenses.  Depreciation, capital expenditure
    and working capital play no part. *)
Theorem stages_value_single_year o out df (revenue opex : list Qc)
    depreciation capex cwc last_revenue (w g : Qc) :
  statements o = Some df →
  pd.columns df !! "Revenue" = Some (Fin <$> revenue) →
  pd.columns df !! "Operating_Expenses" = Some (Fin <$> opex) →
  pd.columns df !! "Depreciation" = Some depreciation →
  pd.columns df !! "Capex" = Some capex →
  pd.columns df !! "Change_Working_Capital" = Some cwc →
  length opex = length revenue →
  (2 ≤ length revenue)%nat →
  Forall (λ r, r ≠ 0) revenue →
  last revenue = Some last_revenue →
  wacc o = Some (Fin w) →
  terminal_growth o = Some (Fin g) →
  projection_years o = Some 1%nat →
  1 + w ≠ 0 →
  w ≠ g →
  let ebit := zip_with Qcminus revenue opex in
  let fcf1 :=
    last_revenue * (1 + mean_q (growth_observations revenue))
    * mean_q (margins ebit revenue) * (1 - Q2Qc (21 # 100)) in
  ∃ pv_fcf terminal_value pv_terminal total_value w',
    valuation_spec [fcf1] w g = Some (pv_fcf, terminal_value, pv_terminal, total_value)
    ∧ (calculate_free_cash_flow;; project_financials;; calculate_dcf_value)
        (mkWorld o out)
      = (Ok (PyDict [("PV of FCF", Fin pv_fcf);
                     ("Terminal Value", Fin terminal_value);
                     ("PV of Terminal Value", Fin pv_terminal);
                     ("Total Value", Fin total_value)]),
         w')
    ∧ stdout w' = out.
Proof.
  intros Hst Hrev Hopex Hdep Hcap Hcwc Hlen H2 Hnz Hlast Hw Hg Hn H1w Hwg ebit fcf1.
  erewrite bind_ok by by eapply calculate_free_cash_flow_completes.
  cbv zeta. rewrite zip_with_fsub_fin. fold ebit.
  erewrite bind_ok.
  2:{ eapply (project_financials_one_year_fin _ _ _ revenue ebit last_revenue g);
        [reflexivity|column|column| |exact H2|exact Hnz|exact Hlast|exact Hg|exact Hn].
      unfold ebit. rewrite length_zip_with. lia. }
  cbv zeta. fold fcf1.
  match goal with
  | |- context [calculate_dcf_value (mkWorld ?o' ?out')] =>
      destruct (calculate_dcf_value_one_year_spec o' out'
                  (pd.mkDataFrame 1
                     (<["FCF" := [Fin fcf1]]>
                        (<["EBIT" := [Fin (last_revenue
                                           * (1 + mean_q (growth_observations revenue))
                                           * mean_q (margins ebit revenue))]]>
                           (<["Revenue" := [Fin (last_revenue
                                                 * (1 + mean_q (growth_observations
                                                                  revenue)))]]> ∅))))
                  fcf1 w g)
        as (pv_fcf & terminal_value & pv_terminal & total_value & Hspec & Hrun);
        [reflexivity|column|exact Hw|exact Hg|exact Hn|exact H1w|exact Hwg|]
  end.
  exists pv_fcf, terminal_value, pv_terminal, total_value. eexists.
  split; [exact Hspec|]. split; [exact Hrun|reflexivity].
Qed.

(** ** The test run as a whole *)

Lemma project_financials_no_record o out df g n :
  statements o = Some df →
  pd.columns df !! "Revenue" = Some [] →
  terminal_growth o = Some g →
  projection_years o = Some n →
  project_financials (mkWorld o out)
  = (Ok PyNone,
     mkWorld (set_projections (Some (pd.mkDataFrame n ∅)) o)
       (out ++ ["Error projecting financials: single positional indexer is out-of-bounds"])).
Proof.
  intros Hst Hrev Hg Hn.
  apply then_return_returned. erewrite try_except_raise.
  2:{ do 2 step. erewrite bind_ok by apply modify_self_ok.
      do 2 step. apply bind_raise. by apply lift_raise. }
  reflexivity.
Qed.

(** A caller's [if value is None: return] after a stage that returned
    [None]. *)
Lemma stop_on_none (m : M pyobj) (k : pyobj → M pyobj) w w' :
  m w = (Ok PyNone, w') →
  (do v <- m; if is_none v then ret PyNone else k v) w = (Ok PyNone, w').
Proof. intros H. by rewrite (bind_ok _ _ _ _ _ H). Qed.

(** On any loaded table, over two years or more, the stages as [test_run]
    calls them end with the valuation returning [None] after an error line,
    whatever would follow. *)
Lemma analysis_stops_at_valuation o out df w g n :
  statements o = Some df →
  missing_columns df = [] →
  wacc o = Some w →
  terminal_growth o = Some g →
  projection_years o = Some n →
  (2 ≤ n)%nat →
  ∃ w' e,
    (∀ k : pyobj → M pyobj,
       (do fcf <- calculate_free_cash_flow;
        if is_none fcf then ret PyNone else
        project_financials;;
        do dcf_value <- calculate_dcf_value;
        if is_none dcf_value then ret PyNone else k dcf_value)
         (mkWorld o out)
       = (Ok PyNone, w'))
    ∧ last (stdout w') = Some ("Error calculating DCF value: " +:+ str e).
Proof.
  intros Hst Hmiss Hw Hg Hn H2.
  pose proof (proj1 (missing_columns_nil_iff df) Hmiss) as Hall.
  apply required_columns_present in Hall
    as ([revenue Hrev] & [opex Hopex] & [dep Hdep] & [cap Hcap] & [cwc Hcwc]).
  destruct (last revenue) as [base|] eqn:Hlast.
  - eexists _, (TypeError "cannot convert the series to <class 'float'>").
    split.
    + intros k.
      erewrite bind_ok by by eapply calculate_free_cash_flow_completes.
      cbv zeta. cbn [is_none].
      erewrite bind_ok.
      2:{ eapply project_financials_completes;
            [reflexivity|column|column|exact Hlast|exact Hg|exact Hn]. }
      cbv zeta.
      apply stop_on_none.
      eapply calculate_dcf_value_fails_beyond_one_year with (n := n);
        [reflexivity|column|exact Hw|exact Hg|exact Hn| |exact H2].
      by rewrite !length_fmap, projected_revenue_length.
    + cbn [stdout]. apply last_snoc.
  - apply last_None in Hlast. subst revenue.
    eexists _, (KeyError "FCF"). split.
    + intros k.
      erewrite bind_ok by by eapply calculate_free_cash_flow_completes.
      cbv zeta. cbn [is_none].
      erewrite bind_ok.
      2:{ eapply project_financials_no_record; [reflexivity|column|exact Hg|exact Hn]. }
      apply stop_on_none.
      eapply calculate_dcf_value_no_fcf_column; [reflexivity|done|exact Hn].
    + cbn [stdout]. apply last_snoc.
Qed.

Section TestRun.

Variable read_csv : string → result pd.DataFrame.
Variable to_csv : pd.DataFrame → string → result unit.
Variable os_remove : string → result unit.
Variable draw_figures : DCFAnalysis → result unit.
Variable build_pdf : DCFAnalysis → list (string * float64) → string → result unit.
Variable format_money : float64 → string.

Lemma create_test_data_written filename o out :
  to_csv test_frame filename = Ok () →
  create_test_data to_csv filename (mkWorld o out)
  = (Ok (PyStr filename),
     mkWorld o (out ++ ["Test data created successfully: " +:+ filename])).
Proof.
  intros H. unfold create_test_data, then_return, try_except, bind, lift, returned,
    print, ret.
  by rewrite H.
Qed.

Lemma create_test_data_failed filename e o out :
  to_csv test_frame filename = Raise e →
  create_test_data to_csv filename (mkWorld o out)
  = (Ok PyNone, mkWorld o (out ++ ["Error creating test data: " +:+ str e])).
Proof.
  intros H. unfold create_test_data, then_return, try_except, bind, lift, returned,
    print, ret.
  by rewrite H.
Qed.

(** X19.  [test_run] never gets to the charts and the report: whatever the file
    system and the libraries do, it returns after the failure of the test
    data, of the load, of the free cash flow or of the valuation, the last
    line printed being that stage's error.  On the tables of this model,
    whose cells are all floats, the free cash flow does not fail after a
    load that went through; it is listed for a file read back with a cell
    that is no number. *)
Theorem test_run_never_reaches_report w :
  ∃ w' stage e,
    test_run read_csv to_csv os_remove draw_figures build_pdf format_money w
    = (Ok PyNone, w')
    ∧ last (stdout w') = Some (stage +:+ str e)
    ∧ stage ∈ ["Error creating test data: "; "Error loading file: ";
               "Error calculating free cash flow: ";
               "Error calculating DCF value: "].
Proof.
  destruct w as [o out]. unfold test_run.
  erewrite bind_ok by reflexivity.
  destruct (to_csv test_frame "test_financial_data.csv") as [[]|e] eqn:Hcsv.
  2:{ erewrite bind_ok by by apply create_test_data_failed.
      eexists _, "Error creating test data: ", e.
      split; [reflexivity|]. split; [apply last_snoc|set_solver]. }
  erewrite bind_ok by by apply create_test_data_written.
  change (negb (truthy (PyStr "test_financial_data.csv"))) with false. cbv iota.
  erewrite bind_ok by apply modify_self_ok.
  destruct (read_csv "test_financial_data.csv") as [df|e] eqn:Hread.
  2:{ erewrite bind_ok by by apply load_data_unreadable.
      eexists _, "Error loading file: ", e.
      split; [reflexivity|]. split; [apply last_snoc|set_solver]. }
  destruct (decide (missing_columns df = [])) as [Hmiss|Hmiss].
  2:{ erewrite bind_ok by by apply load_data_incomplete.
      eexists _, "Error loading file: ",
        (ValueError ("Missing required columns: "
                     +:+ String.concat ", " (missing_columns df))).
      split; [reflexivity|]. split; [apply last_snoc|set_solver]. }
  erewrite bind_ok by by apply load_data_loaded.
  cbn [truthy negb].
  erewrite bind_ok by apply modify_self_ok.
  do 4 (erewrite bind_ok by reflexivity).
  match goal with
  | |- context [mkWorld ?o' ?out'] =>
      destruct (analysis_stops_at_valuation o' out' df (rate 10) (rate 2) 5)
        as (w' & e & Hrun & Hlast); [reflexivity|done|reflexivity..|lia|]
  end.
  exists w', "Error calculating DCF value: ", e.
  split; [apply Hrun|]. split; [exact Hlast|set_solver].
Qed.

End TestRun.

(** ** The further properties at sample inputs *)

Lemma rate_10_not_rate_2 : Q2Qc (10 # 100) ≠ Q2Qc (2 # 100).
Proof. intros E. apply (f_equal this) in E. vm_compute in E. discriminate. Defined.

Lemma one_plus_rate_10_nonzero : 1 + Q2Qc (10 # 100) ≠ 0.
Proof. intros E. apply (f_equal this) in E. vm_compute in E. discriminate. Defined.

Lemma two_record_frame_complete :
  ∀ col, col ∈ required_columns → is_Some (pd.columns two_record_frame !! col).
Proof.
  apply required_columns_present. repeat split; eexists; vm_compute; reflexivity.
Defined.

Lemma calculate_free_cash_flow_partial_witness :
  fst (run calculate_free_cash_flow (analysis_of no_capex_frame)) = Ok PyNone
  ∧ stdout (snd (run calculate_free_cash_flow (analysis_of no_capex_frame)))
    = ["Error calculating free cash flow: 'Capex'"].
Proof.
  unfold run.
  rewrite (calculate_free_cash_flow_partial (analysis_of no_capex_frame) []
             no_capex_frame [Fz 100] [Fz 80] "Capex");
    [|vm_compute; reflexivity..].
  split; reflexivity.
Defined.

Lemma calculate_free_cash_flow_idempotent_witness :
  ∃ fcf w1,
    calculate_free_cash_flow (mkWorld (analysis_of two_record_frame) [])
    = (Ok (PySeries fcf), w1)
    ∧ calculate_free_cash_flow w1 = (Ok (PySeries fcf), w1).
Proof.
  apply (calculate_free_cash_flow_idempotent (analysis_of two_record_frame) []
           two_record_frame eq_refl two_record_frame_complete).
Defined.


Lemma calculate_dcf_value_without_fcf_witness :
  run calculate_dcf_value failed_projection
  = (Ok PyNone, mkWorld failed_projection ([] ++ ["Error calculating DCF value: 'FCF'"])).
Proof.
  apply (calculate_dcf_value_without_fcf failed_projection [] (pd.mkDataFrame 5 ∅) 5);
    reflexivity.
Defined.

Lemma dcf_value_one_year_meets_spec_witness :
  ∃ pv_fcf terminal_value pv_terminal total_value,
    valuation_spec [Qc_of_Z 79] (Q2Qc (10 # 100)) (Q2Qc (2 # 100))
    = Some (pv_fcf, terminal_value, pv_terminal, total_value)
    ∧ run calculate_dcf_value (projected [Fz 79] (rate 10) (rate 2) 1)
      = (Ok (PyDict [("PV of FCF", Fin pv_fcf);
                     ("Terminal Value", Fin terminal_value);
                     ("PV of Terminal Value", Fin pv_terminal);
                     ("Total Value", Fin total_value)]),
         mkWorld (projected [Fz 79] (rate 10) (rate 2) 1) []).
Proof.
  apply (dcf_value_one_year_meets_spec (projected [Fz 79] (rate 10) (rate 2) 1) []
           (pd.mkDataFrame 1 (<["FCF" := [Fz 79]]> ∅)) (Qc_of_Z 79)
           (Q2Qc (10 # 100)) (Q2Qc (2 # 100))
           eq_refl eq_refl eq_refl eq_refl eq_refl
           one_plus_rate_10_nonzero rate_10_not_rate_2).
Defined.

Lemma project_financials_before_free_cash_flow_witness :
  fst (run project_financials (analysis_of no_capex_frame)) = Ok PyNone
  ∧ stdout (snd (run project_financials (analysis_of no_capex_frame)))
    = ["Error projecting financials: 'EBIT'"].
Proof.
  unfold run.
  rewrite (project_financials_before_free_cash_flow (analysis_of no_capex_frame) []
             no_capex_frame [Fz 100] (Fz 100) (rate 2) 5);
    [|vm_compute; reflexivity..].
  split; reflexivity.
Defined.

Lemma project_financials_shape_witness :
  ∃ p,
    projections (self (snd (project_financials (mkWorld (analysis_of two_record_frame) []))))
    = Some p
    ∧ pd.index p = 5%nat
    ∧ dom (pd.columns p) = {["Revenue"; "EBIT"; "FCF"]}
    ∧ ∀ col s, pd.columns p !! col = Some s → length s = 5%nat.
Proof.
  apply (project_financials_shape (analysis_of two_record_frame) [] two_record_frame
           [Fz 100; Fz 110] [Fz 20; Fz 20] (rate 2) 5);
    try (vm_compute; reflexivity).
  discriminate.
Defined.

Lemma project_financials_single_year_witness :
  ∃ p_revenue p_ebit p_fcf,
    project_financials (mkWorld (one_year_analysis_of two_record_frame) [])
    = (Ok PyNone,
       mkWorld
         (set_projections
            (Some (pd.mkDataFrame 1
                     (<["FCF" := [Fin p_fcf]]> (<["EBIT" := [Fin p_ebit]]>
                        (<["Revenue" := [Fin p_revenue]]> ∅)))))
            (one_year_analysis_of two_record_frame))
         []).
Proof.
  eexists _, _, _.
  apply (project_financials_single_year (one_year_analysis_of two_record_frame) []
           two_record_frame [Qc_of_Z 100; Qc_of_Z 110] [Qc_of_Z 20; Qc_of_Z 20]
           (Qc_of_Z 110) (Q2Qc (2 # 100)));
    try (vm_compute; reflexivity).
  repeat constructor; discriminate.
Defined.


Lemma stages_value_single_year_witness :
  let fcf1 :=
    Qc_of_Z 110
    * (1 + mean_q (growth_observations [Qc_of_Z 100; Qc_of_Z 110]))
    * mean_q (margins (zip_with Qcminus [Qc_of_Z 100; Qc_of_Z 110]
                         [Qc_of_Z 80; Qc_of_Z 90])
                [Qc_of_Z 100; Qc_of_Z 110])
    * (1 - Q2Qc (21 # 100)) in
  ∃ pv_fcf terminal_value pv_terminal total_value w',
    valuation_spec [fcf1] (Q2Qc (10 # 100)) (Q2Qc (2 # 100))
    = Some (pv_fcf, terminal_value, pv_terminal, total_value)
    ∧ (calculate_free_cash_flow;; project_financials;; calculate_dcf_value)
        (mkWorld (one_year_analysis_of two_record_frame) [])
      = (Ok (PyDict [("PV of FCF", Fin pv_fcf);
                     ("Terminal Value", Fin terminal_value);
                     ("PV of Terminal Value", Fin pv_terminal);
                     ("Total Value", Fin total_value)]),
         w')
    ∧ stdout w' = [].
Proof.
  apply (stages_value_single_year (one_year_analysis_of two_record_frame) []
           two_record_frame [Qc_of_Z 100; Qc_of_Z 110] [Qc_of_Z 80; Qc_of_Z 90]
           [Fz 5; Fz 5] [Fz 7; Fz 7] [Fz 2; Fz 2] (Qc_of_Z 110)
           (Q2Qc (10 # 100)) (Q2Qc (2 # 100)));
    try (vm_compute; reflexivity).
  - repeat constructor; discriminate.
  - exact one_plus_rate_10_nonzero.
  - exact rate_10_not_rate_2.
Defined.
